(** * SolSplit: client instruction builders, the SplitInterface state
    machine and the split-record ledger.

    The client code (lib/instructions.ts, components/SplitInterface.tsx and
    the test helper of tests/solsplit.ts) is embedded from its TypeScript
    source.  JavaScript numbers are modelled by [Z]: every number the client
    handles here (percentages, nonces) is produced by [parseInt],
    [Math.floor] or integer literals. *)

From Stdlib Require Import ZArith List Bool Lia.
From Stdlib.Strings Require Import String Ascii Byte.
From stdpp Require Import base decidable countable gmap.
Import ListNotations.

Local Open Scope Z_scope.

(** ** Results of code that may throw or abort *)

Inductive result (E A : Type) : Type :=
| Ok (a : A)
| Err (e : E).
Arguments Ok {E A} a.
Arguments Err {E A} e.

Definition bind {E A B : Type} (r : result E A) (k : A -> result E B) : result E B :=
  match r with
  | Ok a => k a
  | Err e => Err e
  end.

Notation "'let*' x ':=' r 'in' k" := (bind r (fun x => k))
  (at level 10, x pattern, r at level 100, k at level 200).

Definition is_ok {E A : Type} (r : result E A) : bool :=
  match r with Ok _ => true | Err _ => false end.

(** ** Bytes and little-endian fields *)

Module Bytes.

Definition to_Z (b : byte) : Z := Z.of_N (Byte.to_N b).

(** The low eight bits of an integer, as [Uint8Array] stores a number. *)
Definition of_Z (z : Z) : byte :=
  match Byte.of_N (Z.to_N (z mod 256)) with
  | Some b => b
  | None => x00
  end.

(** [len] little-endian bytes of [z], least significant first. *)
Fixpoint le_bytes (len : nat) (z : Z) : list byte :=
  match len with
  | O => []
  | S n => of_Z z :: le_bytes n (z / 256)
  end.

(** The unsigned integer a little-endian byte string denotes. *)
Fixpoint le_value (bs : list byte) : Z :=
  match bs with
  | [] => 0
  | b :: rest => to_Z b + 256 * le_value rest
  end.

(** The unsigned integer a big-endian byte string denotes. *)
Definition be_value (bs : list byte) : Z := le_value (rev bs).

Definition is_u8 (z : Z) : Prop := 0 <= z < 2 ^ 8.
Definition is_u64 (z : Z) : Prop := 0 <= z < 2 ^ 64.

End Bytes.

(** ** Exceptions of the JavaScript client *)

Inductive JsError : Type :=
| TypeError (msg : string)
| Error (msg : string).

(** ** bn.js: the big numbers of [@coral-xyz/anchor]

    A [BN] is a sign and a magnitude of any size: an integer. *)

Module BN.

(** [new BN(number)]: [_initNumber] keeps the sign apart and asserts that the
    magnitude is below 2^53. *)
Definition of_number (num : Z) : result JsError Z :=
  if Z.abs num <? 0x20000000000000
  then Ok num
  else Err (Error "Assertion failed").

Definition bitLength (x : Z) : Z :=
  if x =? 0 then 0 else Z.log2 (Z.abs x) + 1.

(** [Math.ceil(this.bitLength() / 8)] *)
Definition byteLength (x : Z) : Z := (bitLength x + 7) / 8.

(** [x.toArrayLike(Buffer, 'le', length)]: the magnitude of [x] (the sign is
    not written), least significant byte first, zero-padded to the requested
    length; it throws when the magnitude needs more bytes than requested. *)
Definition toArrayLike_le (x : Z) (length : nat) : result JsError (list byte) :=
  let byteLength := byteLength x in
  let reqLength :=
    match length with
    | O => Z.to_nat (Z.max 1 byteLength)
    | S _ => length
    end in
  if negb (byteLength <=? Z.of_nat reqLength)
  then Err (Error "byte array longer than desired length")
  else if negb (0 <? Z.of_nat reqLength)
  then Err (Error "Requested array length <= 0")
  else Ok (Bytes.le_bytes reqLength (Z.abs x)).

End BN.

(** ** bs58: the base-58 text form of keys *)

Module Base58.

Definition ALPHABET : string :=
  "123456789ABCDEFGHJKLMNPQRSTUVWXYZabcdefghijkmnopqrstuvwxyz".

Fixpoint index_from (c : ascii) (s : string) (i : Z) : option Z :=
  match s with
  | EmptyString => None
  | String d rest => if Ascii.eqb c d then Some i else index_from c rest (i + 1)
  end.

Definition digit (c : ascii) : option Z := index_from c ALPHABET 0.

(** The leading ['1'] characters, each one zero byte, and the rest. *)
Fixpoint leading_ones (s : string) : nat * string :=
  match s with
  | String "1"%char rest => let '(n, r) := leading_ones rest in (S n, r)
  | _ => (O, s)
  end.

Fixpoint digits_value (s : string) (acc : Z) : option Z :=
  match s with
  | EmptyString => Some acc
  | String c rest =>
      match digit c with
      | Some d => digits_value rest (acc * 58 + d)
      | None => None
      end
  end.

Definition decode (s : string) : result JsError (list byte) :=
  let '(zeroes, rest) := leading_ones s in
  match digits_value rest 0 with
  | None => Err (Error "Non-base58 character")
  | Some v =>
      Ok (repeat x00 zeroes
            ++ rev (Bytes.le_bytes (Z.to_nat (BN.byteLength v)) v))
  end.

End Base58.

(** ** @solana/web3.js: public keys and program-derived addresses *)

(** A [PublicKey] holds its 32 bytes as one big number ([_bn]). *)
Record PublicKey : Type := { bn : Z }.

#[global] Instance PublicKey_eq_dec : EqDecision PublicKey.
Proof. solve_decision. Defined.

#[global] Instance PublicKey_countable : Countable PublicKey.
Proof.
  refine (inj_countable' bn (fun z => {| bn := z |}) _).
  intros [z]. reflexivity.
Defined.

(** The hash and the curve test that address derivation calls; both live
    in the [@noble] libraries. *)
Class Crypto : Type := {
  sha256 : list byte -> list byte;
  isOnCurve : list byte -> bool
}.

Module Web3.

Definition PUBLIC_KEY_LENGTH : nat := 32.
Definition MAX_SEED_LENGTH : nat := 32.

(** [new PublicKey(bytes)] *)
Definition PublicKey_of_bytes (value : list byte) : result JsError PublicKey :=
  let bn := Bytes.be_value value in
  if 32 <? BN.byteLength bn
  then Err (Error "Invalid public key input")
  else Ok {| bn := bn |}.

(** [new PublicKey(string)] *)
Definition PublicKey_of_string (value : string) : result JsError PublicKey :=
  let* decoded := Base58.decode value in
  if negb (Nat.eqb (length decoded) PUBLIC_KEY_LENGTH)
  then Err (Error "Invalid public key input")
  else PublicKey_of_bytes decoded.

(** [key.toBuffer()]: 32 bytes, most significant first. *)
Definition toBuffer (key : PublicKey) : list byte :=
  rev (Bytes.le_bytes PUBLIC_KEY_LENGTH (bn key)).

(** [Buffer.from(string)] on ASCII text. *)
Definition Buffer_from_string (s : string) : list byte := list_byte_of_string s.

(** [Buffer.from(array)]: each number is stored modulo 256. *)
Definition Buffer_from_array (l : list Z) : list byte := map Bytes.of_Z l.

(** [SystemProgram.programId], the key whose text form is 32 ones. *)
Definition SystemProgram_programId : PublicKey := {| bn := 0 |}.

Section Derivation.
Context `{Crypto}.

Definition createProgramAddressSync (seeds : list (list byte)) (programId : PublicKey)
  : result JsError PublicKey :=
  if existsb (fun seed => Nat.ltb MAX_SEED_LENGTH (length seed)) seeds
  then Err (TypeError "Max seed length exceeded")
  else
    let buffer :=
      concat seeds ++ toBuffer programId ++ Buffer_from_string "ProgramDerivedAddress" in
    let publicKeyBytes := sha256 buffer in
    if isOnCurve publicKeyBytes
    then Err (Error "Invalid seeds, address must fall off the curve")
    else PublicKey_of_bytes publicKeyBytes.

(** The loop of [findProgramAddressSync], from the bump [nonce] downwards:
    [while (nonce != 0)], a [TypeError] is rethrown, any other failure
    decrements the bump. *)
Fixpoint findProgramAddress_from (seeds : list (list byte)) (programId : PublicKey)
    (nonce : nat) : result JsError (PublicKey * Z) :=
  match nonce with
  | O => Err (Error "Unable to find a viable program address nonce")
  | S lower =>
      let seedsWithNonce := seeds ++ [Buffer_from_array [Z.of_nat nonce]] in
      match createProgramAddressSync seedsWithNonce programId with
      | Ok address => Ok (address, Z.of_nat nonce)
      | Err (TypeError msg) => Err (TypeError msg)
      | Err (Error _) => findProgramAddress_from seeds programId lower
      end
  end.

Definition findProgramAddressSync (seeds : list (list byte)) (programId : PublicKey)
  : result JsError (PublicKey * Z) :=
  findProgramAddress_from seeds programId 255.

End Derivation.

Record AccountMeta : Type := {
  pubkey : PublicKey;
  isSigner : bool;
  isWritable : bool
}.

Record TransactionInstruction : Type := {
  keys : list AccountMeta;
  programId : PublicKey;
  data : list byte
}.

(** The identities an instruction names, in order. *)
Definition accounts (ix : TransactionInstruction) : list PublicKey :=
  map pubkey (keys ix).

End Web3.

(** ** lib/config.ts *)

Module Config.

Definition PROGRAM_ID_STRING : string := "7dChiG6VDtneaVXxd2gdtg6MxsPXTvYUnEPEgP4sFKts".
Definition DEFAULT_PERCENTAGE_1 : Z := 60.
Definition DEFAULT_PERCENTAGE_2 : Z := 40.

End Config.

(** ** lib/instructions.ts *)

Module Instructions.
Import Web3.

Module DISCRIMINATORS.
Definition INITIALIZE_SPLIT : list byte :=
  Buffer_from_array [53; 17; 92; 9; 84; 151; 173; 78].
Definition EXECUTE_SPLIT : list byte :=
  Buffer_from_array [6; 45; 171; 40; 49; 129; 23; 89].
End DISCRIMINATORS.

(** [new PublicKey(PROGRAM_ID_STRING)], evaluated. *)
Definition PROGRAM_ID : PublicKey :=
  Eval vm_compute in
    match PublicKey_of_string Config.PROGRAM_ID_STRING with
    | Ok key => key
    | Err _ => SystemProgram_programId
    end.

(** Helper to convert u64 to little-endian bytes. *)
Definition u64ToLeBytes (num : Z) : result JsError (list byte) :=
  let* bn := BN.of_number num in
  BN.toArrayLike_le bn 8.

Section Builders.
Context `{Crypto}.

Definition createInitializeSplitInstruction
    (sender recipient1 recipient2 : PublicKey)
    (recipient1Percentage recipient2Percentage : Z)
    (nonce : Z) : result JsError TransactionInstruction :=
  let* programId := PublicKey_of_string Config.PROGRAM_ID_STRING in
  let* nonceBuffer := u64ToLeBytes nonce in
  let* (splitConfigPDA, _) :=
    findProgramAddressSync
      [Buffer_from_string "split_config"; toBuffer sender; nonceBuffer]
      programId in
  let data :=
    concat [DISCRIMINATORS.INITIALIZE_SPLIT;
            Buffer_from_array [recipient1Percentage];
            Buffer_from_array [recipient2Percentage];
            nonceBuffer] in
  Ok {| keys :=
          [ {| pubkey := splitConfigPDA; isSigner := false; isWritable := true |};
            {| pubkey := sender; isSigner := true; isWritable := true |};
            {| pubkey := recipient1; isSigner := false; isWritable := false |};
            {| pubkey := recipient2; isSigner := false; isWritable := false |};
            {| pubkey := SystemProgram_programId; isSigner := false; isWritable := false |} ];
        programId := programId;
        data := data |}.

Definition createExecuteSplitInstruction
    (sender recipient1 recipient2 : PublicKey)
    (amount : Z) (nonce : Z) : result JsError TransactionInstruction :=
  let* programId := PublicKey_of_string Config.PROGRAM_ID_STRING in
  let* nonceBuffer := u64ToLeBytes nonce in
  let* (splitConfigPDA, _) :=
    findProgramAddressSync
      [Buffer_from_string "split_config"; toBuffer sender; nonceBuffer]
      programId in
  let* amountBuffer := BN.toArrayLike_le amount 8 in
  let data := concat [DISCRIMINATORS.EXECUTE_SPLIT; amountBuffer] in
  Ok {| keys :=
          [ {| pubkey := splitConfigPDA; isSigner := false; isWritable := true |};
            {| pubkey := sender; isSigner := true; isWritable := true |};
            {| pubkey := recipient1; isSigner := false; isWritable := true |};
            {| pubkey := recipient2; isSigner := false; isWritable := true |};
            {| pubkey := SystemProgram_programId; isSigner := false; isWritable := false |} ];
        programId := programId;
        data := data |}.

End Builders.
End Instructions.

(** ** tests/solsplit.ts: the address helper of the test suite *)

Module Tests.
Import Web3.

Section Helper.
Context `{Crypto}.

(** [program.programId] is the identity the test workspace deployed the
    program under. *)
Variable program_programId : PublicKey.

Definition getSplitConfigPDA (senderKey : PublicKey) (nonceValue : Z)
  : result JsError (PublicKey * Z) :=
  let* bn := BN.of_number nonceValue in
  let* nonceBuffer := BN.toArrayLike_le bn 8 in
  findProgramAddressSync
    [Buffer_from_string "split_config"; toBuffer senderKey; nonceBuffer]
    program_programId.

End Helper.
End Tests.

(** ** components/SplitInterface.tsx

    The component's state is the tuple of its [useState] cells; an event
    handler runs to completion before the next event is taken (the buttons
    are disabled while [loading] is set).  What the handler cannot decide
    itself is supplied with each event: the wallet that [useWallet] returns
    in that render, and what the network answers to a transaction. *)

Module SplitInterface.
Import Web3 Instructions.

Inductive Step : Type := config | execute.

Inductive Status : Type :=
| StatusEmpty
| StatusConnectWallet
| StatusInitialized
| StatusExecuted
| StatusError (e : JsError).

Record State : Type := {
  recipient1 : string;
  recipient2 : string;
  percentage1 : Z;
  percentage2 : Z;
  amount : string;
  nonce : Z;
  activeNonce : Z;
  loading : bool;
  status : Status;
  txSignature : string;
  step : Step
}.

Definition setRecipient1 (v : string) (s : State) : State :=
  {| recipient1 := v; recipient2 := recipient2 s; percentage1 := percentage1 s;
     percentage2 := percentage2 s; amount := amount s; nonce := nonce s;
     activeNonce := activeNonce s; loading := loading s; status := status s;
     txSignature := txSignature s; step := step s |}.

Definition setRecipient2 (v : string) (s : State) : State :=
  {| recipient1 := recipient1 s; recipient2 := v; percentage1 := percentage1 s;
     percentage2 := percentage2 s; amount := amount s; nonce := nonce s;
     activeNonce := activeNonce s; loading := loading s; status := status s;
     txSignature := txSignature s; step := step s |}.

Definition setPercentage1 (v : Z) (s : State) : State :=
  {| recipient1 := recipient1 s; recipient2 := recipient2 s; percentage1 := v;
     percentage2 := percentage2 s; amount := amount s; nonce := nonce s;
     activeNonce := activeNonce s; loading := loading s; status := status s;
     txSignature := txSignature s; step := step s |}.

Definition setPercentage2 (v : Z) (s : State) : State :=
  {| recipient1 := recipient1 s; recipient2 := recipient2 s; percentage1 := percentage1 s;
     percentage2 := v; amount := amount s; nonce := nonce s;
     activeNonce := activeNonce s; loading := loading s; status := status s;
     txSignature := txSignature s; step := step s |}.

Definition setAmount (v : string) (s : State) : State :=
  {| recipient1 := recipient1 s; recipient2 := recipient2 s; percentage1 := percentage1 s;
     percentage2 := percentage2 s; amount := v; nonce := nonce s;
     activeNonce := activeNonce s; loading := loading s; status := status s;
     txSignature := txSignature s; step := step s |}.

Definition setNonce (v : Z) (s : State) : State :=
  {| recipient1 := recipient1 s; recipient2 := recipient2 s; percentage1 := percentage1 s;
     percentage2 := percentage2 s; amount := amount s; nonce := v;
     activeNonce := activeNonce s; loading := loading s; status := status s;
     txSignature := txSignature s; step := step s |}.

Definition setActiveNonce (v : Z) (s : State) : State :=
  {| recipient1 := recipient1 s; recipient2 := recipient2 s; percentage1 := percentage1 s;
     percentage2 := percentage2 s; amount := amount s; nonce := nonce s;
     activeNonce := v; loading := loading s; status := status s;
     txSignature := txSignature s; step := step s |}.

Definition setLoading (v : bool) (s : State) : State :=
  {| recipient1 := recipient1 s; recipient2 := recipient2 s; percentage1 := percentage1 s;
     percentage2 := percentage2 s; amount := amount s; nonce := nonce s;
     activeNonce := activeNonce s; loading := v; status := status s;
     txSignature := txSignature s; step := step s |}.

Definition setStatus (v : Status) (s : State) : State :=
  {| recipient1 := recipient1 s; recipient2 := recipient2 s; percentage1 := percentage1 s;
     percentage2 := percentage2 s; amount := amount s; nonce := nonce s;
     activeNonce := activeNonce s; loading := loading s; status := v;
     txSignature := txSignature s; step := step s |}.

Definition setTxSignature (v : string) (s : State) : State :=
  {| recipient1 := recipient1 s; recipient2 := recipient2 s; percentage1 := percentage1 s;
     percentage2 := percentage2 s; amount := amount s; nonce := nonce s;
     activeNonce := activeNonce s; loading := loading s; status := status s;
     txSignature := v; step := step s |}.

Definition setStep (v : Step) (s : State) : State :=
  {| recipient1 := recipient1 s; recipient2 := recipient2 s; percentage1 := percentage1 s;
     percentage2 := percentage2 s; amount := amount s; nonce := nonce s;
     activeNonce := activeNonce s; loading := loading s; status := status s;
     txSignature := txSignature s; step := v |}.

(** The state after mounting: the initializer passed to the last
    [useState] call stores one random nonce in both nonce cells. *)
Definition initialState (randomNonce : Z) : State :=
  {| recipient1 := ""; recipient2 := "";
     percentage1 := 60; percentage2 := 40;
     amount := "0.1";
     nonce := randomNonce; activeNonce := randomNonce;
     loading := false; status := StatusEmpty; txSignature := "";
     step := config |}.

(** [String.prototype.trim] on ASCII text. *)
Definition is_space (c : ascii) : bool :=
  let n := nat_of_ascii c in
  Nat.eqb n 32 || (Nat.leb 9 n && Nat.leb n 13).

Fixpoint trimStart (s : string) : string :=
  match s with
  | String c rest => if is_space c then trimStart rest else s
  | EmptyString => EmptyString
  end.

Definition reverse (s : string) : string :=
  string_of_list_ascii (rev (list_ascii_of_string s)).

Definition trim (s : string) : string :=
  reverse (trimStart (reverse (trimStart s))).

(** The value of [<input type="range" min max>]: the browser keeps the
    thumb inside the two bounds. *)
Definition rangeValue (min max position : Z) : Z :=
  Z.max min (Z.min max position).

Record Wallet : Type := {
  publicKey : option PublicKey;
  sendTransaction : bool;
  signTransaction : bool
}.

(** What the cluster answers to a transaction carrying one instruction
    (simulation, sending and confirmation taken together). *)
Inductive Outcome : Type :=
| Confirmed (signature : string)
| Rejected (e : JsError).

Record Env : Type := {
  wallet : Wallet;
  network : TransactionInstruction -> Outcome;
  (** [new BN(parseFloat(amount) * LAMPORTS_PER_SOL)]; the floating-point
      product is not modelled. *)
  amountLamports : string -> result JsError Z
}.

(** The transactions a session hands to the network. *)
Inductive Submission : Type :=
| SubmitInitialize (instruction : TransactionInstruction) (confirmed : bool)
| SubmitExecute (instruction : TransactionInstruction) (confirmed : bool).

Inductive Event : Type :=
| ChangeRecipient1 (text : string)
| ChangeRecipient2 (text : string)
| ChangeSlider (position : Z)
| ChangeAmount (text : string)
| ClickInitialize
| ClickExecute
| ClickStartNewSplit.

Section Handlers.
Context `{Crypto}.

Definition initializeSplit (env : Env) (s : State) : State * list Submission :=
  match publicKey (wallet env), sendTransaction (wallet env) with
  | Some walletKey, true =>
      let s := setLoading true s in
      (* Save the nonce being used for this split *)
      let currentNonce := nonce s in
      let s := setActiveNonce currentNonce s in
      let built :=
        let* recipient1Pubkey := PublicKey_of_string (trim (recipient1 s)) in
        let* recipient2Pubkey := PublicKey_of_string (trim (recipient2 s)) in
        createInitializeSplitInstruction walletKey recipient1Pubkey recipient2Pubkey
          (percentage1 s) (percentage2 s) currentNonce in
      match built with
      | Err e => (setLoading false (setStatus (StatusError e) s), [])
      | Ok instruction =>
          match network env instruction, signTransaction (wallet env) with
          | Confirmed tx, true =>
              let s := setTxSignature tx s in
              let s := setStatus StatusInitialized s in
              let s := setStep execute s in
              (* Auto-increment nonce for next split *)
              let s := setNonce (currentNonce + 1) s in
              (setLoading false s, [SubmitInitialize instruction true])
          | Confirmed _, false =>
              (setLoading false
                 (setStatus (StatusError (Error "Wallet does not support signing transactions")) s),
               [SubmitInitialize instruction false])
          | Rejected e, _ =>
              (setLoading false (setStatus (StatusError e) s),
               [SubmitInitialize instruction false])
          end
      end
  | _, _ => (setStatus StatusConnectWallet s, [])
  end.

Definition executeSplit (env : Env) (s : State) : State * list Submission :=
  match publicKey (wallet env), signTransaction (wallet env) with
  | Some walletKey, true =>
      let s := setLoading true s in
      let built :=
        let* recipient1Pubkey := PublicKey_of_string (trim (recipient1 s)) in
        let* recipient2Pubkey := PublicKey_of_string (trim (recipient2 s)) in
        let* lamports := amountLamports env (amount s) in
        createExecuteSplitInstruction walletKey recipient1Pubkey recipient2Pubkey
          lamports (activeNonce s) (* Use the saved nonce from initialization *) in
      match built with
      | Err e => (setLoading false (setStatus (StatusError e) s), [])
      | Ok instruction =>
          match network env instruction with
          | Confirmed tx =>
              let s := setTxSignature tx s in
              let s := setStatus StatusExecuted s in
              (setLoading false s, [SubmitExecute instruction true])
          | Rejected e =>
              (setLoading false (setStatus (StatusError e) s),
               [SubmitExecute instruction false])
          end
      end
  | _, _ => (setStatus StatusConnectWallet s, [])
  end.

Definition resetForm (s : State) : State :=
  let n := nonce s in
  let s := setRecipient1 "" s in
  let s := setRecipient2 "" s in
  let s := setPercentage1 60 s in
  let s := setPercentage2 40 s in
  let s := setAmount "0.1" s in
  let s := setNonce (n + 1) s in
  let s := setStatus StatusEmpty s in
  let s := setTxSignature "" s in
  setStep config s.

(** The [disabled] attributes of the three buttons. *)
Definition initializeDisabled (env : Env) (s : State) : bool :=
  loading s
  || negb (bool_decide (is_Some (publicKey (wallet env))))
  || negb (percentage1 s + percentage2 s =? 100).

Definition executeDisabled (env : Env) (s : State) : bool :=
  loading s || negb (bool_decide (is_Some (publicKey (wallet env)))).

Definition startNewSplitDisabled (s : State) : bool := loading s.

(** One event of the rendered component.  The Initialize button is
    rendered in step [config], the other two in step [execute]; a click on
    a button that is not rendered or is disabled does nothing.  The nonce
    field is hidden and read-only: it takes no input. *)
Definition handle (env : Env) (ev : Event) (s : State) : State * list Submission :=
  match ev with
  | ChangeRecipient1 text => (setRecipient1 (trim text) s, [])
  | ChangeRecipient2 text => (setRecipient2 (trim text) s, [])
  | ChangeSlider position =>
      let val := rangeValue 1 99 position in
      (setPercentage2 (100 - val) (setPercentage1 val s), [])
  | ChangeAmount text => (setAmount text s, [])
  | ClickInitialize =>
      match step s with
      | config => if initializeDisabled env s then (s, []) else initializeSplit env s
      | execute => (s, [])
      end
  | ClickExecute =>
      match step s with
      | execute => if executeDisabled env s then (s, []) else executeSplit env s
      | config => (s, [])
      end
  | ClickStartNewSplit =>
      match step s with
      | execute => if startNewSplitDisabled s then (s, []) else (resetForm s, [])
      | config => (s, [])
      end
  end.

(** A session: the events of one mounted component, in order, with the
    submissions they cause. *)
Fixpoint run (events : list (Env * Event)) (s : State) : State * list Submission :=
  match events with
  | [] => (s, [])
  | (env, ev) :: rest =>
      let '(s1, out1) := handle env ev s in
      let '(s2, out2) := run rest s1 in
      (s2, out1 ++ out2)
  end.

End Handlers.

(** The most recent Initialize of a log, with whether it was confirmed. *)
Fixpoint lastInitialize (log : list Submission)
  : option (TransactionInstruction * bool) :=
  match log with
  | [] => None
  | SubmitInitialize ix c :: rest =>
      match lastInitialize rest with
      | Some found => Some found
      | None => Some (ix, c)
      end
  | SubmitExecute _ _ :: rest => lastInitialize rest
  end.

Section Observations.
Context `{Crypto}.

(** An Initialize instruction built for the owner [sender], the two shares
    and the nonce [n]. *)
Definition builtInitialize (ix : TransactionInstruction)
    (sender : PublicKey) (p1 p2 n : Z) : Prop :=
  exists r1 r2, createInitializeSplitInstruction sender r1 r2 p1 p2 n = Ok ix.

(** An Execute instruction built for the owner [sender] and the nonce [n]. *)
Definition builtExecute (ix : TransactionInstruction)
    (sender : PublicKey) (n : Z) : Prop :=
  exists r1 r2 lamports, createExecuteSplitInstruction sender r1 r2 lamports n = Ok ix.

(** The shares are a slider position and its complement. *)
Definition sharesInv (s : State) : Prop :=
  1 <= percentage1 s <= 99 /\ percentage2 s = 100 - percentage1 s.

(** In step [execute] the nonce counter is one past the active nonce, and
    the last Initialize of the log was confirmed and built from the active
    nonce. *)
Definition nonceInv (s : State) (log : list Submission) : Prop :=
  step s = execute ->
  nonce s = activeNonce s + 1 /\
  exists ixI w p1 p2,
    lastInitialize log = Some (ixI, true)
    /\ builtInitialize ixI w p1 p2 (activeNonce s).

(** Every Initialize of the log carries a slider position and its
    complement; every Execute follows a confirmed Initialize, the last one
    before it, built from the same nonce. *)
Definition goodEntry (before : list Submission) (entry : Submission) : Prop :=
  match entry with
  | SubmitInitialize ix _ =>
      exists w p1 p2 n,
        builtInitialize ix w p1 p2 n /\ 1 <= p1 <= 99 /\ p2 = 100 - p1
  | SubmitExecute ixE _ =>
      exists ixI wI wE p1 p2 n,
        lastInitialize before = Some (ixI, true)
        /\ builtInitialize ixI wI p1 p2 n
        /\ builtExecute ixE wE n
  end.

Definition goodLog (log : list Submission) : Prop :=
  forall i entry, log !! i = Some entry -> goodEntry (take i log) entry.

End Observations.

(** The shares an Initialize instruction carries: bytes 8 and 9 of its data. *)
Definition carriedShares (ix : TransactionInstruction) : option (Z * Z) :=
  match data ix !! 8%nat, data ix !! 9%nat with
  | Some b1, Some b2 => Some (Bytes.to_Z b1, Bytes.to_Z b2)
  | _, _ => None
  end.

End SplitInterface.

(** ** Deterministic addressing in the spec's words (section 4.1)

    The fixed tag, the owner identity and the sequence number as a
    fixed-width little-endian integer, concatenated. *)

Module Addressing.

Definition TAG : string := "split_config".

Definition recordSeed (owner : PublicKey) (sequence : Z) : list byte :=
  list_byte_of_string TAG ++ Web3.toBuffer owner ++ Bytes.le_bytes 8 sequence.

(** The seed list handed to the derivation: tag, owner, sequence bytes. *)
Definition seedsOf (owner : PublicKey) (sequenceBytes : list byte) : list (list byte) :=
  [list_byte_of_string TAG; Web3.toBuffer owner; sequenceBytes].

(** What the derivation hashes for a given derivation byte. *)
Definition preimage (programId owner : PublicKey) (sequence : Z) (bump : Z) : list byte :=
  recordSeed owner sequence
    ++ [Bytes.of_Z bump]
    ++ Web3.toBuffer programId
    ++ list_byte_of_string "ProgramDerivedAddress".

End Addressing.

(** ** The on-ledger state machine

    Modelled from the spec: the program that owns the split records (the
    Anchor program under [programs/solsplit]) is missing; only its tests,
    its client and two snippets quoted in the README are at hand.  The
    operations below follow sections 3, 4 and 7 of the specification, check
    by check in the order the preconditions are listed; the proportional
    split follows the quoted snippet. *)

Module Ledger.

(** Modelled from the spec: the error taxonomy of section 7 (the Rust enum
    [SplitError] is missing), with the failures of the host's transfer
    primitive, allocator and record lookup. *)
Inductive SplitError : Type :=
| InvalidPercentages
| ZeroPercentage
| DuplicateRecipient
| InvalidRecipient
| AlreadyExecuted
| NotExecuted
| UnauthorizedSender
| AmountTooSmall
| ArithmeticOverflow
(* failures of the host's collaborators *)
| InsufficientBalance
| AddressInUse
| RecordNotFound.

(** Modelled from the spec: the persistent entity of section 3 (the Rust
    struct [SplitConfig] is missing). *)
Record SplitRecord : Type := {
  owner : PublicKey;
  recipient1 : PublicKey;
  recipient2 : PublicKey;
  share1 : Z;
  share2 : Z;
  sequence : Z;
  executed : bool;
  createdAt : Z;
  executedAt : Z;
  addressSalt : Z
}.

(** Modelled from the spec: a record at rest, with the storage deposit
    that keeps it allocated (glossary; the host's account is missing). *)
Record Allocation : Type := {
  record : SplitRecord;
  deposit : Z
}.

(** Modelled from the spec: the ledger, that is the records at their
    addresses and the balances the core reads and writes through transfers
    (section 3; the host's state is missing). *)
Record State : Type := {
  records : gmap PublicKey Allocation;
  balances : gmap PublicKey Z
}.

Definition balance (b : gmap PublicKey Z) (who : PublicKey) : Z :=
  default 0 (b !! who).

Definition debit (who : PublicKey) (amount : Z) (b : gmap PublicKey Z) : gmap PublicKey Z :=
  <[who := balance b who - amount]> b.

Definition credit (who : PublicKey) (amount : Z) (b : gmap PublicKey Z) : gmap PublicKey Z :=
  <[who := balance b who + amount]> b.

(** Modelled from the spec: the transfer primitive of section 6,
    [transfer(from, to, amount) -> success | insufficientBalance]. *)
Definition transfer (from to : PublicKey) (amount : Z) (b : gmap PublicKey Z)
  : result SplitError (gmap PublicKey Z) :=
  if balance b from <? amount
  then Err InsufficientBalance
  else Ok (credit to amount (debit from amount b)).

(** Modelled from the spec: the minimum-transfer threshold, a fixed protocol
    constant (observed value: 1000 smallest units). *)
Definition minimumTransferThreshold : Z := 1000.

(** *** The checked arithmetic of the split (README snippet) *)

Definition U64_MAX : Z := 2 ^ 64 - 1.
Definition U128_MAX : Z := 2 ^ 128 - 1.

Definition checked_mul_u128 (a b : Z) : option Z :=
  if a * b <=? U128_MAX then Some (a * b) else None.

Definition checked_div_u128 (a b : Z) : option Z :=
  if b =? 0 then None else Some (a / b).

Definition as_u64 (z : Z) : Z := z mod 2 ^ 64.

Definition checked_sub_u64 (a b : Z) : option Z :=
  if b <=? a then Some (a - b) else None.

(** [(amount as u128).checked_mul(percentage as u128).unwrap()
      .checked_div(100).unwrap() as u64]; a failed check is reported as
    [ArithmeticOverflow]. *)
Definition amount1_of (amount percentage : Z) : result SplitError Z :=
  match checked_mul_u128 amount percentage with
  | None => Err ArithmeticOverflow
  | Some product =>
      match checked_div_u128 product 100 with
      | None => Err ArithmeticOverflow
      | Some quotient => Ok (as_u64 quotient)
      end
  end.

(** Modelled from the spec: [amount2 = amount - amount1], the remainder of
    the rounding going to the second recipient (section 4.3). *)
Definition split_amounts (amount percentage : Z) : result SplitError (Z * Z) :=
  let* amount1 := amount1_of amount percentage in
  match checked_sub_u64 amount amount1 with
  | None => Err ArithmeticOverflow
  | Some amount2 => Ok (amount1, amount2)
  end.

(** Modelled from the spec: the four operations of section 6 with their
    payloads and the accounts they name (the instruction enum is missing). *)
Inductive Operation : Type :=
| Initialize (share1 share2 : Z) (sequence : Z) (recipient1 recipient2 : PublicKey)
| Execute (address : PublicKey) (amount : Z) (recipient1 recipient2 : PublicKey)
| Cancel (address : PublicKey)
| Close (address : PublicKey).

Section Machine.

(** Deterministic addressing (section 4.1): the storage address of
    [(owner, sequence)] and its derivation byte. *)
Variable recordAddress : PublicKey -> Z -> PublicKey * Z.

(** The reserved/system identities no recipient may be. *)
Variable reserved : PublicKey -> bool.

(** The deposit the allocator takes for a record's fixed-size storage. *)
Variable storageDeposit : Z.

(** Modelled from the spec: the allocator of section 6,
    [allocate(address, size, payer)], which fails only on an occupied
    address and funds the deposit from the payer's balance. *)
Definition allocate (address : PublicKey) (r : SplitRecord) (payer : PublicKey)
    (l : State) : result SplitError State :=
  match records l !! address with
  | Some _ => Err AddressInUse
  | None =>
      Ok {| records := <[address := {| record := r; deposit := storageDeposit |}]> (records l);
            balances := debit payer storageDeposit (balances l) |}
  end.

(** Modelled from the spec: [deallocate(address, payer)], which destroys
    the record and returns its deposit. *)
Definition deallocate (address : PublicKey) (payer : PublicKey) (l : State) : State :=
  match records l !! address with
  | Some a =>
      {| records := delete address (records l);
         balances := credit payer (deposit a) (balances l) |}
  | None => l
  end.

(** Modelled from the spec: Initialize (section 4.2); the handler
    [initialize_split] is missing. *)
Definition initialize (caller : PublicKey) (now : Z)
    (share1 share2 : Z) (sequence : Z) (recipient1 recipient2 : PublicKey)
    (l : State) : result SplitError State :=
  if negb (share1 + share2 =? 100) then Err InvalidPercentages
  else if negb ((0 <? share1) && (0 <? share2)) then Err ZeroPercentage
  else if bool_decide (recipient1 = recipient2) then Err DuplicateRecipient
  else if reserved recipient1 || reserved recipient2 then Err InvalidRecipient
  else
    let '(address, salt) := recordAddress caller sequence in
    allocate address
      {| owner := caller; recipient1 := recipient1; recipient2 := recipient2;
         share1 := share1; share2 := share2; sequence := sequence;
         executed := false; createdAt := now; executedAt := 0;
         addressSalt := salt |}
      caller l.

(** Modelled from the spec: the effect of Execute on the record,
    [executed := true], [executedAt := now] (section 4.3). *)
Definition mark_executed (now : Z) (r : SplitRecord) : SplitRecord :=
  {| owner := owner r; recipient1 := recipient1 r; recipient2 := recipient2 r;
     share1 := share1 r; share2 := share2 r; sequence := sequence r;
     executed := true; createdAt := createdAt r; executedAt := now;
     addressSalt := addressSalt r |}.

(** Modelled from the spec: Execute (section 4.3); the handler
    [execute_split] is missing, its replay guard and its checked product
    are quoted in the README. *)
Definition execute (caller : PublicKey) (now : Z)
    (address : PublicKey) (amount : Z) (recipient1' recipient2' : PublicKey)
    (l : State) : result SplitError State :=
  match records l !! address with
  | None => Err RecordNotFound
  | Some a =>
      let r := record a in
      if executed r then Err AlreadyExecuted
      else if negb (bool_decide (caller = owner r)) then Err UnauthorizedSender
      else if negb (bool_decide (recipient1' = recipient1 r)
                    && bool_decide (recipient2' = recipient2 r))
      then Err InvalidRecipient
      else if amount <? minimumTransferThreshold then Err AmountTooSmall
      else
        let* (amount1, amount2) := split_amounts amount (share1 r) in
        let* b1 := transfer (owner r) (recipient1 r) amount1 (balances l) in
        let* b2 := transfer (owner r) (recipient2 r) amount2 b1 in
        Ok {| records :=
                <[address := {| record := mark_executed now r; deposit := deposit a |}]>
                  (records l);
              balances := b2 |}
  end.

(** Modelled from the spec: Cancel (section 4.4); the handler
    [cancel_split] is missing. *)
Definition cancel (caller : PublicKey) (address : PublicKey) (l : State)
  : result SplitError State :=
  match records l !! address with
  | None => Err RecordNotFound
  | Some a =>
      let r := record a in
      if negb (bool_decide (caller = owner r)) then Err UnauthorizedSender
      else if executed r then Err AlreadyExecuted
      else Ok (deallocate address (owner r) l)
  end.

(** Modelled from the spec: Close (section 4.5); the handler [close_split]
    is missing. *)
Definition close (caller : PublicKey) (address : PublicKey) (l : State)
  : result SplitError State :=
  match records l !! address with
  | None => Err RecordNotFound
  | Some a =>
      let r := record a in
      if negb (bool_decide (caller = owner r)) then Err UnauthorizedSender
      else if negb (executed r) then Err NotExecuted
      else Ok (deallocate address (owner r) l)
  end.

(** Modelled from the spec: dispatch by tag (section 9). *)
Definition dispatch (caller : PublicKey) (now : Z) (op : Operation) (l : State)
  : result SplitError State :=
  match op with
  | Initialize s1 s2 seq r1 r2 => initialize caller now s1 s2 seq r1 r2 l
  | Execute address amount r1 r2 => execute caller now address amount r1 r2 l
  | Cancel address => cancel caller address l
  | Close address => close caller address l
  end.

(** Modelled from the spec: host-enforced atomicity (sections 4.3 and 7);
    a rejected operation leaves the ledger as it was. *)
Definition submit (caller : PublicKey) (now : Z) (op : Operation) (l : State) : State :=
  match dispatch caller now op l with
  | Ok l' => l'
  | Err _ => l
  end.

End Machine.
End Ledger.

(** ** Stand-ins to evaluate the definitions on examples

    A checksum in place of the hash and a curve test that accepts every
    candidate; they only serve to run the builders and the ledger on
    concrete inputs. *)

Module Examples.

Definition checksum (buf : list byte) : list byte :=
  Bytes.le_bytes 32
    (fold_left (fun acc b => (acc * 257 + Bytes.to_Z b + 1) mod 2 ^ 256) buf 0).

Definition crypto : Crypto :=
  {| sha256 := checksum; isOnCurve := fun _ => false |}.

Definition alice : PublicKey := {| bn := 11 |}.
Definition bob : PublicKey := {| bn := 22 |}.
Definition carol : PublicKey := {| bn := 33 |}.
Definition mallory : PublicKey := {| bn := 44 |}.

(** Two well-formed recipient addresses (the byte strings 0...01 and
    0...02 in base 58). *)
Definition address1 : string := "11111111111111111111111111111112".
Definition address2 : string := "11111111111111111111111111111113".

(** An environment in which [who] is connected and every transaction is
    confirmed. *)
Definition connected (who : PublicKey) : SplitInterface.Env :=
  {| SplitInterface.wallet :=
       {| SplitInterface.publicKey := Some who;
          SplitInterface.sendTransaction := true;
          SplitInterface.signTransaction := true |};
     SplitInterface.network := fun _ => SplitInterface.Confirmed "signature";
     SplitInterface.amountLamports := fun _ => Ok 100000000 |}.

(** An environment in which [who] is connected and the cluster rejects
    every transaction. *)
Definition refused (who : PublicKey) : SplitInterface.Env :=
  {| SplitInterface.wallet :=
       {| SplitInterface.publicKey := Some who;
          SplitInterface.sendTransaction := true;
          SplitInterface.signTransaction := true |};
     SplitInterface.network :=
       fun _ => SplitInterface.Rejected (Error "Transaction failed");
     SplitInterface.amountLamports := fun _ => Ok 100000000 |}.

(** alice fills the form, moves the slider to 70 and initializes; Execute
    is then clicked in the environment [atExecute]. *)
Definition session (atExecute : SplitInterface.Env)
  : list (SplitInterface.Env * SplitInterface.Event) :=
  [ (connected alice, SplitInterface.ChangeRecipient1 address1);
    (connected alice, SplitInterface.ChangeRecipient2 address2);
    (connected alice, SplitInterface.ChangeSlider 70);
    (connected alice, SplitInterface.ClickInitialize);
    (atExecute, SplitInterface.ClickExecute) ].

(** A ledger to run the operations on: addresses derived as the client
    derives them, the system program as the one reserved identity, and a
    deposit of 1809600 units. *)
Definition recordAddress (owner : PublicKey) (sequence : Z) : PublicKey * Z :=
  match Web3.findProgramAddressSync (H := crypto)
          (Addressing.seedsOf owner (Bytes.le_bytes 8 sequence))
          Instructions.PROGRAM_ID with
  | Ok found => found
  | Err _ => (Web3.SystemProgram_programId, 0)
  end.

Definition reserved (who : PublicKey) : bool :=
  bool_decide (who = Web3.SystemProgram_programId).

Definition storageDeposit : Z := 1809600.

Definition genesis : Ledger.State :=
  {| Ledger.records := ∅;
     Ledger.balances := {[ alice := 1000000000 ]} |}.

Definition recordOfAlice : PublicKey := (recordAddress alice 7).1.

(** alice creates a 33/67 split between bob and carol ... *)
Definition created : Ledger.State :=
  Ledger.submit recordAddress reserved storageDeposit alice 100
    (Ledger.Initialize 33 67 7 bob carol) genesis.

(** ... and funds it with 1000 units. *)
Definition paid : Ledger.State :=
  Ledger.submit recordAddress reserved storageDeposit alice 200
    (Ledger.Execute recordOfAlice 1000 bob carol) created.

End Examples.

(** * Facts *)

(** ** Byte strings *)

Module BytesFacts.
Import Bytes.

Lemma to_Z_range b : 0 <= to_Z b < 256.
Proof.
  unfold to_Z. pose proof (Byte.to_N_bounded b). lia.
Qed.

Lemma to_of_Z z : to_Z (of_Z z) = z mod 256.
Proof.
  unfold to_Z, of_Z.
  pose proof (Z.mod_pos_bound z 256 eq_refl) as Hm.
  destruct (Byte.of_N (Z.to_N (z mod 256))) as [b|] eqn:Hb.
  - apply Byte.to_of_N in Hb. rewrite Hb. lia.
  - apply Byte.of_N_None_iff in Hb. lia.
Qed.

Lemma of_to_Z b : of_Z (to_Z b) = b.
Proof.
  unfold of_Z, to_Z. pose proof (Byte.to_N_bounded b) as Hb.
  rewrite Z.mod_small by lia.
  rewrite N2Z.id, Byte.of_to_N. reflexivity.
Qed.

Lemma le_bytes_length len z : length (le_bytes len z) = len.
Proof.
  revert z. induction len as [|n IH]; intros z; simpl; [reflexivity|].
  now rewrite IH.
Qed.

Lemma le_value_bytes len z :
  0 <= z < 256 ^ Z.of_nat len -> le_value (le_bytes len z) = z.
Proof.
  revert z. induction len as [|n IH]; intros z Hz.
  - simpl in *. lia.
  - cbn [le_bytes le_value]. rewrite to_of_Z.
    rewrite Nat2Z.inj_succ, Z.pow_succ_r in Hz by lia.
    rewrite IH.
    + pose proof (Z.div_mod z 256). lia.
    + split; [apply Z.div_pos; lia|].
      apply Z.div_lt_upper_bound; lia.
Qed.

Lemma le_value_range bs : 0 <= le_value bs < 256 ^ Z.of_nat (length bs).
Proof.
  induction bs as [|b rest IH].
  - simpl. lia.
  - cbn [le_value length]. pose proof (to_Z_range b).
    rewrite Nat2Z.inj_succ, Z.pow_succ_r by lia. lia.
Qed.

Lemma le_bytes_value bs : le_bytes (length bs) (le_value bs) = bs.
Proof.
  induction bs as [|b rest IH]; [reflexivity|].
  cbn [le_value length le_bytes]. pose proof (to_Z_range b).
  f_equal.
  - rewrite <- (of_to_Z b) at 2. unfold of_Z.
    replace ((to_Z b + 256 * le_value rest) mod 256) with (to_Z b mod 256); [reflexivity|].
    symmetry. rewrite (Z.mul_comm 256). apply Z.mod_add. lia.
  - replace ((to_Z b + 256 * le_value rest) / 256) with (le_value rest); [exact IH|].
    rewrite (Z.mul_comm 256), Z.div_add by lia.
    rewrite (Z.div_small (to_Z b)) by lia. lia.
Qed.

End BytesFacts.

(** ** Big numbers *)

Module BNFacts.
Import BN.

Lemma of_number_ok num : Z.abs num < 2 ^ 53 -> of_number num = Ok num.
Proof.
  intros Hn. unfold of_number.
  destruct (Z.ltb_spec (Z.abs num) 0x20000000000000) as [_|Hge]; [reflexivity|].
  change 0x20000000000000 with (2 ^ 53) in Hge. lia.
Qed.

Lemma of_number_inv num x : of_number num = Ok x -> x = num /\ Z.abs num < 2 ^ 53.
Proof.
  unfold of_number.
  destruct (Z.ltb_spec (Z.abs num) 0x20000000000000) as [Hlt|_]; [|discriminate].
  intros [= <-]. change 0x20000000000000 with (2 ^ 53) in Hlt. auto.
Qed.

Lemma byteLength_nonneg x : 0 <= byteLength x.
Proof.
  unfold byteLength, bitLength.
  destruct (x =? 0); [apply Z.div_pos; lia|].
  pose proof (Z.log2_nonneg (Z.abs x)). apply Z.div_pos; lia.
Qed.

(** A number fits [n] bytes exactly when its magnitude is below [256^n]. *)
Lemma byteLength_le x n :
  0 <= n -> (byteLength x <= n <-> Z.abs x < 2 ^ (8 * n)).
Proof.
  intros Hn. unfold byteLength, bitLength.
  destruct (Z.eqb_spec x 0) as [->|Hx].
  - change ((0 + 7) / 8) with 0.
    pose proof (Z.pow_pos_nonneg 2 (8 * n)). simpl. lia.
  - assert (0 < Z.abs x) as Hpos by lia.
    pose proof (Z.log2_nonneg (Z.abs x)) as Hl.
    rewrite (Z.log2_lt_pow2 _ _ Hpos).
    pose proof (Z.div_mod (Z.log2 (Z.abs x) + 1 + 7) 8) as Hdm.
    pose proof (Z.mod_pos_bound (Z.log2 (Z.abs x) + 1 + 7) 8) as Hmb.
    lia.
Qed.

Lemma toArrayLike_le_ok x (n : nat) :
  (0 < n)%nat -> Z.abs x < 2 ^ (8 * Z.of_nat n) ->
  toArrayLike_le x n = Ok (Bytes.le_bytes n (Z.abs x)).
Proof.
  intros Hn Hx. unfold toArrayLike_le.
  destruct n as [|m]; [lia|].
  apply byteLength_le in Hx; [|lia].
  destruct (Z.leb_spec (byteLength x) (Z.of_nat (S m))); [|lia].
  destruct (Z.ltb_spec 0 (Z.of_nat (S m))); [|lia].
  reflexivity.
Qed.

Lemma toArrayLike_le_inv x (n : nat) bs :
  (0 < n)%nat -> toArrayLike_le x n = Ok bs ->
  bs = Bytes.le_bytes n (Z.abs x) /\ Z.abs x < 2 ^ (8 * Z.of_nat n).
Proof.
  intros Hn. unfold toArrayLike_le.
  destruct n as [|m]; [lia|].
  destruct (Z.leb_spec (byteLength x) (Z.of_nat (S m))) as [Hle|]; [|discriminate].
  destruct (Z.ltb_spec 0 (Z.of_nat (S m))); [|discriminate].
  cbn [negb]. intros [= <-]. split; [reflexivity|].
  apply byteLength_le; lia.
Qed.

End BNFacts.

(** ** The instruction builders *)

Module InstructionFacts.
Import Web3 Instructions.

Lemma programId_ok :
  PublicKey_of_string Config.PROGRAM_ID_STRING = Ok PROGRAM_ID.
Proof. vm_compute. reflexivity. Qed.

Lemma u64ToLeBytes_ok num :
  Z.abs num < 2 ^ 53 -> u64ToLeBytes num = Ok (Bytes.le_bytes 8 (Z.abs num)).
Proof.
  intros Hn. unfold u64ToLeBytes.
  rewrite BNFacts.of_number_ok by exact Hn. cbn [bind].
  apply BNFacts.toArrayLike_le_ok; [lia|].
  change (2 ^ (8 * Z.of_nat 8)) with (2 ^ 64).
  assert (2 ^ 53 < 2 ^ 64) by (apply Z.pow_lt_mono_r; lia). lia.
Qed.

Lemma u64ToLeBytes_inv num bs :
  u64ToLeBytes num = Ok bs ->
  bs = Bytes.le_bytes 8 (Z.abs num) /\ Z.abs num < 2 ^ 53.
Proof.
  unfold u64ToLeBytes. intros Hb.
  destruct (BN.of_number num) as [x|e] eqn:Hx; cbn [bind] in Hb; [|discriminate].
  apply BNFacts.of_number_inv in Hx as [-> Hlt].
  apply BNFacts.toArrayLike_le_inv in Hb as [-> _]; [auto|lia].
Qed.

Lemma u64ToLeBytes_throws num :
  2 ^ 53 <= Z.abs num -> u64ToLeBytes num = Err (Error "Assertion failed").
Proof.
  intros Hn. unfold u64ToLeBytes, BN.of_number.
  destruct (Z.ltb_spec (Z.abs num) 0x20000000000000) as [Hlt|_]; [|reflexivity].
  change 0x20000000000000 with (2 ^ 53) in Hlt. lia.
Qed.

Section WithCrypto.
Context `{Crypto}.
Import Addressing.

Lemma createInitialize_inv sender r1 r2 p1 p2 nonce ix :
  createInitializeSplitInstruction sender r1 r2 p1 p2 nonce = Ok ix ->
  exists pda bump,
    Z.abs nonce < 2 ^ 53 /\
    findProgramAddressSync (seedsOf sender (Bytes.le_bytes 8 (Z.abs nonce))) PROGRAM_ID
      = Ok (pda, bump) /\
    ix = {| keys :=
              [ {| pubkey := pda; isSigner := false; isWritable := true |};
                {| pubkey := sender; isSigner := true; isWritable := true |};
                {| pubkey := r1; isSigner := false; isWritable := false |};
                {| pubkey := r2; isSigner := false; isWritable := false |};
                {| pubkey := SystemProgram_programId; isSigner := false; isWritable := false |} ];
            programId := PROGRAM_ID;
            data := concat [DISCRIMINATORS.INITIALIZE_SPLIT;
                            Buffer_from_array [p1]; Buffer_from_array [p2];
                            Bytes.le_bytes 8 (Z.abs nonce)] |}.
Proof.
  unfold createInitializeSplitInstruction. rewrite programId_ok. cbn [bind].
  destruct (u64ToLeBytes nonce) as [nb|e] eqn:Hnb; cbn [bind]; [|discriminate].
  apply u64ToLeBytes_inv in Hnb as [-> Hlt].
  destruct (findProgramAddressSync _ PROGRAM_ID) as [[pda bump]|e] eqn:Hpda;
    cbn [bind]; [|discriminate].
  intros [= <-]. exists pda, bump. auto.
Qed.

Lemma createExecute_inv sender r1 r2 amount nonce ix :
  createExecuteSplitInstruction sender r1 r2 amount nonce = Ok ix ->
  exists pda bump,
    Z.abs nonce < 2 ^ 53 /\ Z.abs amount < 2 ^ 64 /\
    findProgramAddressSync (seedsOf sender (Bytes.le_bytes 8 (Z.abs nonce))) PROGRAM_ID
      = Ok (pda, bump) /\
    ix = {| keys :=
              [ {| pubkey := pda; isSigner := false; isWritable := true |};
                {| pubkey := sender; isSigner := true; isWritable := true |};
                {| pubkey := r1; isSigner := false; isWritable := true |};
                {| pubkey := r2; isSigner := false; isWritable := true |};
                {| pubkey := SystemProgram_programId; isSigner := false; isWritable := false |} ];
            programId := PROGRAM_ID;
            data := concat [DISCRIMINATORS.EXECUTE_SPLIT;
                            Bytes.le_bytes 8 (Z.abs amount)] |}.
Proof.
  unfold createExecuteSplitInstruction. rewrite programId_ok. cbn [bind].
  destruct (u64ToLeBytes nonce) as [nb|e] eqn:Hnb; cbn [bind]; [|discriminate].
  apply u64ToLeBytes_inv in Hnb as [-> Hlt].
  destruct (findProgramAddressSync _ PROGRAM_ID) as [[pda bump]|e] eqn:Hpda;
    cbn [bind]; [|discriminate].
  destruct (BN.toArrayLike_le amount 8) as [ab|e] eqn:Hab; cbn [bind]; [|discriminate].
  apply BNFacts.toArrayLike_le_inv in Hab as [-> Hamt]; [|lia].
  intros [= <-]. exists pda, bump. auto.
Qed.

Lemma createInitialize_ok sender r1 r2 p1 p2 nonce pda bump :
  Z.abs nonce < 2 ^ 53 ->
  findProgramAddressSync (seedsOf sender (Bytes.le_bytes 8 (Z.abs nonce))) PROGRAM_ID
    = Ok (pda, bump) ->
  is_ok (createInitializeSplitInstruction sender r1 r2 p1 p2 nonce) = true.
Proof.
  intros Hn Hpda. unfold createInitializeSplitInstruction.
  rewrite programId_ok. cbn [bind].
  rewrite u64ToLeBytes_ok by exact Hn. cbn [bind].
  change (findProgramAddressSync (seedsOf sender (Bytes.le_bytes 8 (Z.abs nonce))) PROGRAM_ID
            = Ok (pda, bump)) in Hpda.
  unfold seedsOf, TAG in Hpda. unfold Buffer_from_string. rewrite Hpda. reflexivity.
Qed.

Lemma createExecute_ok sender r1 r2 amount nonce pda bump :
  Z.abs nonce < 2 ^ 53 -> Z.abs amount < 2 ^ 64 ->
  findProgramAddressSync (seedsOf sender (Bytes.le_bytes 8 (Z.abs nonce))) PROGRAM_ID
    = Ok (pda, bump) ->
  is_ok (createExecuteSplitInstruction sender r1 r2 amount nonce) = true.
Proof.
  intros Hn Ha Hpda. unfold createExecuteSplitInstruction.
  rewrite programId_ok. cbn [bind].
  rewrite u64ToLeBytes_ok by exact Hn. cbn [bind].
  change (findProgramAddressSync (seedsOf sender (Bytes.le_bytes 8 (Z.abs nonce))) PROGRAM_ID
            = Ok (pda, bump)) in Hpda.
  unfold seedsOf, TAG in Hpda. unfold Buffer_from_string. rewrite Hpda. cbn [bind].
  rewrite BNFacts.toArrayLike_le_ok by (try exact Ha; lia). reflexivity.
Qed.

End WithCrypto.
End InstructionFacts.

(** ** Program-derived addresses *)

Module DerivationFacts.
Import Web3 Addressing.

Section WithCrypto.
Context `{Crypto}.

Lemma createProgramAddressSync_inv seeds programId address :
  createProgramAddressSync seeds programId = Ok address ->
  PublicKey_of_bytes
    (sha256 (concat seeds ++ toBuffer programId
               ++ Buffer_from_string "ProgramDerivedAddress")) = Ok address.
Proof.
  unfold createProgramAddressSync.
  destruct (existsb _ seeds); [discriminate|].
  destruct (isOnCurve _); [discriminate|]. auto.
Qed.

Lemma findProgramAddress_from_inv seeds programId start address bump :
  findProgramAddress_from seeds programId start = Ok (address, bump) ->
  1 <= bump <= Z.of_nat start /\
  createProgramAddressSync (seeds ++ [Buffer_from_array [bump]]) programId = Ok address.
Proof.
  induction start as [|lower IH]; cbn [findProgramAddress_from]; [discriminate|].
  intros Hf.
  destruct (createProgramAddressSync
              (seeds ++ [Buffer_from_array [Z.of_nat (S lower)]]) programId)
    as [a|[msg|msg]] eqn:Hc.
  - inversion Hf; subst. split; [lia|exact Hc].
  - discriminate.
  - destruct (IH Hf) as [Hb Hok]. split; [lia|exact Hok].
Qed.

(** The address found for the record seeds is the hash of the tag, the
    owner, the eight sequence bytes, the bump, the program and the marker. *)
Lemma findProgramAddressSync_preimage programId owner sequence address bump :
  findProgramAddressSync (seedsOf owner (Bytes.le_bytes 8 sequence)) programId
    = Ok (address, bump) ->
  1 <= bump <= 255 /\
  PublicKey_of_bytes (sha256 (preimage programId owner sequence bump)) = Ok address.
Proof.
  unfold findProgramAddressSync. intros Hf.
  apply findProgramAddress_from_inv in Hf as [Hb Hc].
  split; [exact Hb|].
  apply createProgramAddressSync_inv in Hc.
  unfold preimage, recordSeed. unfold seedsOf in Hc. cbn [concat app] in Hc.
  rewrite <- Hc. do 2 f_equal.
Qed.

End WithCrypto.
End DerivationFacts.

(** * The client: addresses, instruction data and account lists *)

Section ClientClaims.
Context `{Crypto}.
Import Web3 Instructions Addressing.

(** C3 -- The record address is a function of (owner, sequence) alone: it is
    the hash of the tag "split_config", the owner's 32 bytes and the sequence
    as eight little-endian bytes (followed by the derivation byte, the
    program and the library's marker), and the derivation inside
    createInitializeSplitInstruction, the one inside
    createExecuteSplitInstruction and the test helper getSplitConfigPDA give
    the same address for every owner and sequence, the test workspace's
    program being the configured one. *)
Theorem record_address_derivations_agree
    (program_programId sender recipient1 recipient2 : PublicKey)
    (p1 p2 amount nonce : Z) :
  program_programId = PROGRAM_ID ->
  (forall pda bump,
      Tests.getSplitConfigPDA program_programId sender nonce = Ok (pda, bump) ->
      1 <= bump <= 255 /\
      PublicKey_of_bytes
        (sha256 (preimage PROGRAM_ID sender (Z.abs nonce) bump)) = Ok pda)
  /\ (forall ix,
      createInitializeSplitInstruction sender recipient1 recipient2 p1 p2 nonce = Ok ix ->
      exists pda bump,
        Tests.getSplitConfigPDA program_programId sender nonce = Ok (pda, bump)
        /\ accounts ix !! 0%nat = Some pda)
  /\ (forall ix,
      createExecuteSplitInstruction sender recipient1 recipient2 amount nonce = Ok ix ->
      exists pda bump,
        Tests.getSplitConfigPDA program_programId sender nonce = Ok (pda, bump)
        /\ accounts ix !! 0%nat = Some pda)
  /\ (forall pda bump,
      Tests.getSplitConfigPDA program_programId sender nonce = Ok (pda, bump) ->
      (exists ix,
          createInitializeSplitInstruction sender recipient1 recipient2 p1 p2 nonce = Ok ix
          /\ accounts ix !! 0%nat = Some pda)
      /\ (Z.abs amount < 2 ^ 64 ->
          exists ix,
            createExecuteSplitInstruction sender recipient1 recipient2 amount nonce = Ok ix
            /\ accounts ix !! 0%nat = Some pda)).
Proof.
  intros ->.
  assert (forall pda bump,
             Tests.getSplitConfigPDA PROGRAM_ID sender nonce = Ok (pda, bump) <->
             Z.abs nonce < 2 ^ 53 /\
             findProgramAddressSync (seedsOf sender (Bytes.le_bytes 8 (Z.abs nonce)))
               PROGRAM_ID = Ok (pda, bump)) as Hhelper.
  { intros pda bump. unfold Tests.getSplitConfigPDA. split.
    - intros Hg.
      destruct (BN.of_number nonce) as [x|e] eqn:Hx; cbn [bind] in Hg; [|discriminate].
      apply BNFacts.of_number_inv in Hx as [-> Hlt].
      destruct (BN.toArrayLike_le nonce 8) as [nb|e] eqn:Hnb; cbn [bind] in Hg;
        [|discriminate].
      apply BNFacts.toArrayLike_le_inv in Hnb as [-> _]; [|lia].
      split; [exact Hlt|exact Hg].
    - intros [Hlt Hf].
      rewrite BNFacts.of_number_ok by exact Hlt. cbn [bind].
      rewrite BNFacts.toArrayLike_le_ok; [exact Hf|lia|].
      change (2 ^ (8 * Z.of_nat 8)) with (2 ^ 64).
      assert (2 ^ 53 < 2 ^ 64) by (apply Z.pow_lt_mono_r; lia). lia. }
  split; [|split; [|split; [|intros pda bump Hg; split]]].
  - intros pda bump Hg. apply Hhelper in Hg as [_ Hf].
    exact (DerivationFacts.findProgramAddressSync_preimage _ _ _ _ _ Hf).
  - intros ix Hix.
    apply InstructionFacts.createInitialize_inv in Hix as (pda & bump & Hlt & Hf & ->).
    exists pda, bump. split; [apply Hhelper; auto|reflexivity].
  - intros ix Hix.
    apply InstructionFacts.createExecute_inv in Hix as (pda & bump & Hlt & _ & Hf & ->).
    exists pda, bump. split; [apply Hhelper; auto|reflexivity].
  - apply Hhelper in Hg as [Hlt Hf].
    pose proof (InstructionFacts.createInitialize_ok sender recipient1 recipient2
                  p1 p2 nonce pda bump Hlt Hf) as Hok.
    destruct (createInitializeSplitInstruction _ _ _ _ _ _) as [ix|e] eqn:Hix;
      [|discriminate].
    exists ix. split; [reflexivity|].
    apply InstructionFacts.createInitialize_inv in Hix as (pda' & bump' & _ & Hf' & ->).
    rewrite Hf in Hf'. inversion Hf'; subst. reflexivity.
  - intros Hamt. apply Hhelper in Hg as [Hlt Hf].
    pose proof (InstructionFacts.createExecute_ok sender recipient1 recipient2
                  amount nonce pda bump Hlt Hamt Hf) as Hok.
    destruct (createExecuteSplitInstruction _ _ _ _ _) as [ix|e] eqn:Hix;
      [|discriminate].
    exists ix. split; [reflexivity|].
    apply InstructionFacts.createExecute_inv in Hix as (pda' & bump' & _ & _ & Hf' & ->).
    rewrite Hf in Hf'. inversion Hf'; subst. reflexivity.
Qed.

(** C4 -- Whenever a builder returns an instruction, its data is exactly the
    8-byte tag followed by the fields: for Initialize share1 as one byte,
    share2 as one byte and the sequence as eight little-endian bytes (18
    bytes), for Execute the amount as eight little-endian bytes (16 bytes);
    the eight bytes read back as the number written, a share byte as the
    share modulo 256.  The builders return for every nonce below 2^53 and
    amount below 2^64 whose address derivation finds a bump, and throw on a
    larger nonce. *)
Theorem instruction_data_layout
    (sender recipient1 recipient2 : PublicKey) (p1 p2 amount nonce : Z) :
  (forall ix,
      createInitializeSplitInstruction sender recipient1 recipient2 p1 p2 nonce = Ok ix ->
      data ix = DISCRIMINATORS.INITIALIZE_SPLIT
                  ++ [Bytes.of_Z p1] ++ [Bytes.of_Z p2]
                  ++ Bytes.le_bytes 8 (Z.abs nonce)
      /\ length (data ix) = 18%nat
      /\ Bytes.le_value (Bytes.le_bytes 8 (Z.abs nonce)) = Z.abs nonce)
  /\ (forall ix,
      createExecuteSplitInstruction sender recipient1 recipient2 amount nonce = Ok ix ->
      data ix = DISCRIMINATORS.EXECUTE_SPLIT ++ Bytes.le_bytes 8 (Z.abs amount)
      /\ length (data ix) = 16%nat
      /\ Bytes.le_value (Bytes.le_bytes 8 (Z.abs amount)) = Z.abs amount)
  /\ length DISCRIMINATORS.INITIALIZE_SPLIT = 8%nat
  /\ length DISCRIMINATORS.EXECUTE_SPLIT = 8%nat
  /\ Bytes.to_Z (Bytes.of_Z p1) = p1 mod 256
  /\ Bytes.to_Z (Bytes.of_Z p2) = p2 mod 256
  /\ (forall pda bump,
      Z.abs nonce < 2 ^ 53 ->
      findProgramAddressSync (seedsOf sender (Bytes.le_bytes 8 (Z.abs nonce))) PROGRAM_ID
        = Ok (pda, bump) ->
      is_ok (createInitializeSplitInstruction sender recipient1 recipient2 p1 p2 nonce) = true
      /\ (Z.abs amount < 2 ^ 64 ->
          is_ok (createExecuteSplitInstruction sender recipient1 recipient2 amount nonce)
            = true))
  /\ (2 ^ 53 <= Z.abs nonce ->
      createInitializeSplitInstruction sender recipient1 recipient2 p1 p2 nonce
        = Err (Error "Assertion failed")
      /\ createExecuteSplitInstruction sender recipient1 recipient2 amount nonce
        = Err (Error "Assertion failed")).
Proof.
  assert (forall z, Z.abs z < 2 ^ 64 ->
                    Bytes.le_value (Bytes.le_bytes 8 (Z.abs z)) = Z.abs z) as Hback.
  { intros z Hz. apply BytesFacts.le_value_bytes.
    change (256 ^ Z.of_nat 8) with (2 ^ 64). lia. }
  assert (2 ^ 53 < 2 ^ 64) as Hpow by (apply Z.pow_lt_mono_r; lia).
  split; [|split; [|split; [|split; [|split; [|split; [|split]]]]]].
  - intros ix Hix.
    apply InstructionFacts.createInitialize_inv in Hix as (pda & bump & Hlt & _ & ->).
    cbn [data concat Buffer_from_array map]. rewrite app_nil_r.
    split; [reflexivity|split].
    + rewrite !length_app, BytesFacts.le_bytes_length. reflexivity.
    + apply Hback. lia.
  - intros ix Hix.
    apply InstructionFacts.createExecute_inv in Hix as (pda & bump & _ & Hamt & _ & ->).
    cbn [data concat]. rewrite app_nil_r.
    split; [reflexivity|split].
    + rewrite !length_app, BytesFacts.le_bytes_length. reflexivity.
    + apply Hback. exact Hamt.
  - reflexivity.
  - reflexivity.
  - apply BytesFacts.to_of_Z.
  - apply BytesFacts.to_of_Z.
  - intros pda bump Hlt Hf. split.
    + exact (InstructionFacts.createInitialize_ok _ _ _ _ _ _ _ _ Hlt Hf).
    + intros Hamt.
      exact (InstructionFacts.createExecute_ok _ _ _ _ _ _ _ Hlt Hamt Hf).
  - intros Hbig.
    unfold createInitializeSplitInstruction, createExecuteSplitInstruction.
    rewrite InstructionFacts.programId_ok. cbn [bind].
    rewrite InstructionFacts.u64ToLeBytes_throws by exact Hbig.
    split; reflexivity.
Qed.

(** C5 (as amended) -- Both builders name the same five accounts in the
    same order: the derived record address, the owner (the signer),
    recipient1, recipient2 and the system program. *)
Theorem instruction_accounts_in_order
    (sender recipient1 recipient2 : PublicKey) (p1 p2 amount nonce : Z) :
  (forall ix,
      createInitializeSplitInstruction sender recipient1 recipient2 p1 p2 nonce = Ok ix ->
      exists pda bump,
        findProgramAddressSync (seedsOf sender (Bytes.le_bytes 8 (Z.abs nonce))) PROGRAM_ID
          = Ok (pda, bump)
        /\ accounts ix = [pda; sender; recipient1; recipient2; SystemProgram_programId]
        /\ map isSigner (keys ix) = [false; true; false; false; false])
  /\ (forall ix,
      createExecuteSplitInstruction sender recipient1 recipient2 amount nonce = Ok ix ->
      exists pda bump,
        findProgramAddressSync (seedsOf sender (Bytes.le_bytes 8 (Z.abs nonce))) PROGRAM_ID
          = Ok (pda, bump)
        /\ accounts ix = [pda; sender; recipient1; recipient2; SystemProgram_programId]
        /\ map isSigner (keys ix) = [false; true; false; false; false]).
Proof.
  split; intros ix Hix.
  - apply InstructionFacts.createInitialize_inv in Hix as (pda & bump & _ & Hf & ->).
    exists pda, bump. auto.
  - apply InstructionFacts.createExecute_inv in Hix as (pda & bump & _ & _ & Hf & ->).
    exists pda, bump. auto.
Qed.

End ClientClaims.

(** The three derivations on one owner and sequence, evaluated with the
    stand-in hash. *)
Lemma record_address_derivations_agree_witness :
  exists pda bump ix,
    Tests.getSplitConfigPDA (H := Examples.crypto) Instructions.PROGRAM_ID
      Examples.alice 7 = Ok (pda, bump)
    /\ Instructions.createInitializeSplitInstruction (H := Examples.crypto)
         Examples.alice Examples.bob Examples.carol 60 40 7 = Ok ix
    /\ Web3.accounts ix !! 0%nat = Some pda.
Proof.
  destruct (record_address_derivations_agree (H := Examples.crypto)
              Instructions.PROGRAM_ID Examples.alice Examples.bob Examples.carol
              60 40 100000000 7 eq_refl) as (_ & _ & _ & Hback).
  eexists. eexists.
  assert (Tests.getSplitConfigPDA (H := Examples.crypto) Instructions.PROGRAM_ID
            Examples.alice 7
          = Ok ({| bn := 50041928879824791946973559204547002964706091109709558341742709673436622368037 |},
                255)) as Hpda by (vm_compute; reflexivity).
  destruct (Hback _ _ Hpda) as [(ix & Hix & H0) _].
  exists ix. split; [exact Hpda|split; [exact Hix|exact H0]].
Defined.

(** The data of one Initialize and one Execute instruction, byte by byte. *)
Lemma instruction_data_layout_witness :
  exists ixI ixE,
    Instructions.createInitializeSplitInstruction (H := Examples.crypto)
      Examples.alice Examples.bob Examples.carol 60 40 7 = Ok ixI
    /\ Instructions.createExecuteSplitInstruction (H := Examples.crypto)
         Examples.alice Examples.bob Examples.carol 100000000 7 = Ok ixE
    /\ Web3.data ixI
       = Web3.Buffer_from_array
           [53; 17; 92; 9; 84; 151; 173; 78; 60; 40; 7; 0; 0; 0; 0; 0; 0; 0]
    /\ Web3.data ixE
       = Web3.Buffer_from_array
           [6; 45; 171; 40; 49; 129; 23; 89; 0; 225; 245; 5; 0; 0; 0; 0].
Proof.
  destruct (instruction_data_layout (H := Examples.crypto)
              Examples.alice Examples.bob Examples.carol 60 40 100000000 7)
    as (HI & HE & _).
  destruct (Instructions.createInitializeSplitInstruction (H := Examples.crypto)
              Examples.alice Examples.bob Examples.carol 60 40 7) as [ixI|e] eqn:HixI;
    [|vm_compute in HixI; discriminate].
  destruct (Instructions.createExecuteSplitInstruction (H := Examples.crypto)
              Examples.alice Examples.bob Examples.carol 100000000 7) as [ixE|e] eqn:HixE;
    [|vm_compute in HixE; discriminate].
  exists ixI, ixE.
  destruct (HI ixI eq_refl) as (HdI & _).
  destruct (HE ixE eq_refl) as (HdE & _).
  split; [reflexivity|split; [reflexivity|split]].
  - rewrite HdI. vm_compute. reflexivity.
  - rewrite HdE. vm_compute. reflexivity.
Defined.

(** C5 fails as stated: the Initialize instruction names recipient2 (here
    carol) as its fourth account, and the Execute instruction names the
    system program as its fifth. *)
Lemma initialize_names_recipient2_execute_names_system :
  exists ixI ixE,
    Instructions.createInitializeSplitInstruction (H := Examples.crypto)
      Examples.alice Examples.bob Examples.carol 60 40 7 = Ok ixI
    /\ Instructions.createExecuteSplitInstruction (H := Examples.crypto)
         Examples.alice Examples.bob Examples.carol 100000000 7 = Ok ixE
    /\ Web3.accounts ixI !! 3%nat = Some Examples.carol
    /\ length (Web3.accounts ixI) = 5%nat
    /\ Web3.accounts ixE !! 4%nat = Some Web3.SystemProgram_programId
    /\ length (Web3.accounts ixE) = 5%nat.
Proof.
  eexists. eexists.
  split; [vm_compute; reflexivity|].
  split; [vm_compute; reflexivity|].
  repeat split; reflexivity.
Qed.

(** The account lists of one Initialize and one Execute instruction. *)
Lemma instruction_accounts_in_order_witness :
  exists ixI ixE pda,
    Instructions.createInitializeSplitInstruction (H := Examples.crypto)
      Examples.alice Examples.bob Examples.carol 60 40 7 = Ok ixI
    /\ Instructions.createExecuteSplitInstruction (H := Examples.crypto)
         Examples.alice Examples.bob Examples.carol 100000000 7 = Ok ixE
    /\ Web3.accounts ixI
       = [pda; Examples.alice; Examples.bob; Examples.carol; Web3.SystemProgram_programId]
    /\ Web3.accounts ixE
       = [pda; Examples.alice; Examples.bob; Examples.carol; Web3.SystemProgram_programId].
Proof.
  destruct (instruction_accounts_in_order (H := Examples.crypto)
              Examples.alice Examples.bob Examples.carol 60 40 100000000 7)
    as (HI & HE).
  destruct (Instructions.createInitializeSplitInstruction (H := Examples.crypto)
              Examples.alice Examples.bob Examples.carol 60 40 7) as [ixI|e] eqn:HixI;
    [|vm_compute in HixI; discriminate].
  destruct (Instructions.createExecuteSplitInstruction (H := Examples.crypto)
              Examples.alice Examples.bob Examples.carol 100000000 7) as [ixE|e] eqn:HixE;
    [|vm_compute in HixE; discriminate].
  destruct (HI ixI eq_refl) as (pda & bump & Hf & HaI & _).
  destruct (HE ixE eq_refl) as (pda' & bump' & Hf' & HaE & _).
  rewrite Hf in Hf'. inversion Hf'; subst pda' bump'.
  exists ixI, ixE, pda.
  split; [reflexivity|split; [reflexivity|split; [exact HaI|exact HaE]]].
Defined.

(** * The SplitInterface sessions *)

Module SessionFacts.
Import Web3 Instructions SplitInterface.

Lemma lastInitialize_app log1 log2 :
  lastInitialize (log1 ++ log2) =
  match lastInitialize log2 with
  | Some found => Some found
  | None => lastInitialize log1
  end.
Proof.
  induction log1 as [|[ix c|ix c] rest IH]; cbn [app lastInitialize].
  - destruct (lastInitialize log2); reflexivity.
  - rewrite IH. destruct (lastInitialize log2); reflexivity.
  - exact IH.
Qed.

Ltac state_simpl :=
  cbn [recipient1 recipient2 percentage1 percentage2 amount nonce activeNonce
       loading status txSignature step
       setRecipient1 setRecipient2 setPercentage1 setPercentage2 setAmount
       setNonce setActiveNonce setLoading setStatus setTxSignature setStep
       resetForm initialState] in *.

Section WithCrypto.
Context `{Crypto}.

(** What [initializeSplit] submits and how it leaves the state: nothing, or
    one Initialize built from the current shares and the current nonce;
    when it is confirmed the nonce just used is the active one and the
    counter is one ahead. *)
Lemma initializeSplit_cases env s s' out :
  initializeSplit env s = (s', out) ->
  percentage1 s' = percentage1 s /\ percentage2 s' = percentage2 s /\
  ((out = [] /\ step s' = step s /\ nonce s' = nonce s)
   \/ (exists ix w,
         out = [SubmitInitialize ix false] /\ step s' = step s /\ nonce s' = nonce s
         /\ builtInitialize ix w (percentage1 s) (percentage2 s) (nonce s))
   \/ (exists ix w,
         out = [SubmitInitialize ix true] /\ step s' = execute
         /\ activeNonce s' = nonce s /\ nonce s' = nonce s + 1
         /\ publicKey (wallet env) = Some w
         /\ builtInitialize ix w (percentage1 s) (percentage2 s) (nonce s))).
Proof.
  unfold initializeSplit. cbv zeta.
  destruct (publicKey (wallet env)) as [w|];
    [|intros [= <- <-]; state_simpl; auto 10].
  destruct (sendTransaction (wallet env));
    [|intros [= <- <-]; state_simpl; auto 10].
  state_simpl.
  destruct (PublicKey_of_string (trim (recipient1 s))) as [r1|e1]; cbn [bind];
    [|intros [= <- <-]; state_simpl; auto 10].
  destruct (PublicKey_of_string (trim (recipient2 s))) as [r2|e2]; cbn [bind];
    [|intros [= <- <-]; state_simpl; auto 10].
  destruct (createInitializeSplitInstruction w r1 r2 (percentage1 s) (percentage2 s)
              (nonce s)) as [ix|e] eqn:Hix;
    [|intros [= <- <-]; state_simpl; auto 10].
  assert (builtInitialize ix w (percentage1 s) (percentage2 s) (nonce s)) as Hb
    by (exists r1, r2; exact Hix).
  destruct (network env ix) as [tx|e]; [destruct (signTransaction (wallet env))|];
    intros [= <- <-]; state_simpl.
  - split; [reflexivity|split; [reflexivity|]]. right; right. exists ix, w. auto 10.
  - split; [reflexivity|split; [reflexivity|]]. right; left. exists ix, w. auto.
  - split; [reflexivity|split; [reflexivity|]]. right; left. exists ix, w. auto.
Qed.

(** What [executeSplit] submits: nothing, or one Execute built from the
    active nonce; it leaves shares, step and both nonce cells alone. *)
Lemma executeSplit_cases env s s' out :
  executeSplit env s = (s', out) ->
  percentage1 s' = percentage1 s /\ percentage2 s' = percentage2 s /\
  step s' = step s /\ nonce s' = nonce s /\ activeNonce s' = activeNonce s /\
  (out = []
   \/ exists ix w c,
        out = [SubmitExecute ix c]
        /\ publicKey (wallet env) = Some w
        /\ builtExecute ix w (activeNonce s)).
Proof.
  unfold executeSplit. cbv zeta.
  destruct (publicKey (wallet env)) as [w|];
    [|intros [= <- <-]; state_simpl; auto 10].
  destruct (signTransaction (wallet env));
    [|intros [= <- <-]; state_simpl; auto 10].
  state_simpl.
  destruct (PublicKey_of_string (trim (recipient1 s))) as [r1|e1]; cbn [bind];
    [|intros [= <- <-]; state_simpl; auto 10].
  destruct (PublicKey_of_string (trim (recipient2 s))) as [r2|e2]; cbn [bind];
    [|intros [= <- <-]; state_simpl; auto 10].
  destruct (amountLamports env (amount s)) as [lamports|e3]; cbn [bind];
    [|intros [= <- <-]; state_simpl; auto 10].
  destruct (createExecuteSplitInstruction w r1 r2 lamports (activeNonce s))
    as [ix|e] eqn:Hix;
    [|intros [= <- <-]; state_simpl; auto 10].
  assert (builtExecute ix w (activeNonce s)) as Hb
    by (exists r1, r2, lamports; exact Hix).
  destruct (network env ix) as [tx|e]; intros [= <- <-]; state_simpl;
    (repeat (split; [reflexivity|])); right; eexists ix, w, _; auto.
Qed.

Lemma goodLog_nil : goodLog [].
Proof. intros i entry Hi. destruct i; discriminate. Qed.

Lemma goodLog_snoc log entry :
  goodLog log -> goodEntry log entry -> goodLog (log ++ [entry]).
Proof.
  intros Hlog Hentry i e Hi.
  apply lookup_snoc_Some in Hi as [[Hlt Hi]|[-> <-]].
  - rewrite take_app_le by lia. apply Hlog, Hi.
  - rewrite take_app_length. exact Hentry.
Qed.

(** The invariants only read the shares, the step and the nonce cells. *)
Lemma invariants_frame s s' log :
  percentage1 s' = percentage1 s -> percentage2 s' = percentage2 s ->
  step s' = step s -> nonce s' = nonce s -> activeNonce s' = activeNonce s ->
  sharesInv s -> nonceInv s log -> sharesInv s' /\ nonceInv s' log.
Proof.
  unfold sharesInv, nonceInv. intros -> -> -> -> ->. auto.
Qed.

Ltac unchanged Hh Hsh Hnonce Hlog :=
  inversion Hh; subst; rewrite app_nil_r;
  match goal with
  | |- _ /\ _ /\ _ =>
      apply and_assoc; split; [|exact Hlog];
      apply (invariants_frame _ _ _ eq_refl eq_refl eq_refl eq_refl eq_refl Hsh Hnonce)
  end.

(** One event keeps the invariants and appends only good entries. *)
Lemma handle_invariant env ev s log s' out :
  handle env ev s = (s', out) ->
  sharesInv s -> nonceInv s log -> goodLog log ->
  sharesInv s' /\ nonceInv s' (log ++ out) /\ goodLog (log ++ out).
Proof.
  intros Hh Hsh Hnonce Hlog.
  pose proof Hsh as [Hrange Hcompl].
  destruct ev; cbn [handle] in Hh.
  - unchanged Hh Hsh Hnonce Hlog.
  - unchanged Hh Hsh Hnonce Hlog.
  - inversion Hh; subst. rewrite app_nil_r.
    split; [|split; [exact Hnonce|exact Hlog]].
    unfold sharesInv, rangeValue. state_simpl. lia.
  - unchanged Hh Hsh Hnonce Hlog.
  - destruct (step s) eqn:Hstep; [|unchanged Hh Hsh Hnonce Hlog].
    destruct (initializeDisabled env s); [unchanged Hh Hsh Hnonce Hlog|].
    apply initializeSplit_cases in Hh
      as (Hp1 & Hp2 & [(-> & Hs & Hn)|[(ix & w & -> & Hs & Hn & Hb)
                                      |(ix & w & -> & Hs & Ha & Hn & Hw & Hb)]]).
    + rewrite app_nil_r.
      split; [unfold sharesInv; rewrite Hp1, Hp2; exact Hsh|].
      split; [|exact Hlog].
      intros Hx. rewrite Hs, Hstep in Hx. discriminate.
    + split; [unfold sharesInv; rewrite Hp1, Hp2; exact Hsh|].
      split; [intros Hx; rewrite Hs, Hstep in Hx; discriminate|].
      apply goodLog_snoc; [exact Hlog|].
      exists w, (percentage1 s), (percentage2 s), (nonce s). auto.
    + unfold sharesInv, nonceInv. rewrite Hp1, Hp2.
      split; [auto|split].
      * intros _. split; [lia|].
        exists ix, w, (percentage1 s), (percentage2 s).
        rewrite lastInitialize_app, Ha. split; [reflexivity|exact Hb].
      * apply goodLog_snoc; [exact Hlog|].
        exists w, (percentage1 s), (percentage2 s), (nonce s). auto.
  - destruct (step s) eqn:Hstep; [unchanged Hh Hsh Hnonce Hlog|].
    destruct (executeDisabled env s); [unchanged Hh Hsh Hnonce Hlog|].
    destruct (Hnonce Hstep) as (Hcounter & ixI & wI & p1 & p2 & Hlast & HbI).
    apply executeSplit_cases in Hh
      as (Hp1 & Hp2 & Hs & Hn & Ha & [->|(ix & w & c & -> & Hw & Hb)]).
    + rewrite app_nil_r. apply and_assoc. split; [|exact Hlog].
      exact (invariants_frame _ _ _ Hp1 Hp2 Hs Hn Ha Hsh Hnonce).
    + unfold sharesInv, nonceInv. rewrite Hp1, Hp2, Hn, Ha.
      split; [auto|split].
      * intros _. split; [exact Hcounter|].
        exists ixI, wI, p1, p2. rewrite lastInitialize_app. cbn [lastInitialize].
        auto.
      * apply goodLog_snoc; [exact Hlog|].
        exists ixI, wI, w, p1, p2, (activeNonce s). auto.
  - destruct (step s) eqn:Hstep; [unchanged Hh Hsh Hnonce Hlog|].
    destruct (startNewSplitDisabled s); [unchanged Hh Hsh Hnonce Hlog|].
    inversion Hh; subst. rewrite app_nil_r. unfold sharesInv, nonceInv.
    state_simpl. repeat split; auto; try lia; discriminate.
Qed.

(** A whole session keeps the invariants. *)
Lemma run_invariant events : forall s log s' out,
  run events s = (s', out) ->
  sharesInv s -> nonceInv s log -> goodLog log ->
  sharesInv s' /\ nonceInv s' (log ++ out) /\ goodLog (log ++ out).
Proof.
  induction events as [|[env ev] rest IH]; intros s log s' out Hrun Hsh Hno Hlog.
  - inversion Hrun; subst. rewrite app_nil_r. auto.
  - cbn [run] in Hrun.
    destruct (handle env ev s) as [s1 out1] eqn:Hh.
    destruct (run rest s1) as [s2 out2] eqn:Hr.
    inversion Hrun; subst.
    destruct (handle_invariant _ _ _ _ _ _ Hh Hsh Hno Hlog) as (Hsh1 & Hno1 & Hlog1).
    rewrite app_assoc. exact (IH _ _ _ _ Hr Hsh1 Hno1 Hlog1).
Qed.

Lemma initialState_invariant randomNonce :
  sharesInv (initialState randomNonce)
  /\ nonceInv (initialState randomNonce) []
  /\ goodLog [].
Proof.
  unfold sharesInv, nonceInv. state_simpl.
  split; [lia|split; [discriminate|apply goodLog_nil]].
Qed.

End WithCrypto.
End SessionFacts.

Section SessionClaims.
Context `{Crypto}.
Import Web3 Instructions SplitInterface.

(** C9 (as amended) -- initializeSplit stores the nonce it submits in
    activeNonce and only then advances the nonce counter, and executeSplit
    builds its instruction from activeNonce.  Hence in every session every
    Execute instruction follows a confirmed Initialize, the last one before
    it, built from the same nonce; it targets the record address that
    Initialize created whenever the wallet connected at the Execute click is
    the one that signed the Initialize; and in step execute the counter is
    already one past the active nonce. *)
Theorem execute_targets_last_initialize
    (randomNonce : Z) (events : list (Env * Event))
    (s : State) (log : list Submission)
    (i : nat) (ixE : TransactionInstruction) (c : bool) :
  run events (initialState randomNonce) = (s, log) ->
  log !! i = Some (SubmitExecute ixE c) ->
  (exists ixI wI wE p1 p2 n,
      lastInitialize (take i log) = Some (ixI, true)
      /\ builtInitialize ixI wI p1 p2 n
      /\ builtExecute ixE wE n
      /\ accounts ixI !! 1%nat = Some wI
      /\ accounts ixE !! 1%nat = Some wE
      /\ (wE = wI -> accounts ixE !! 0%nat = accounts ixI !! 0%nat))
  /\ (step s = execute -> nonce s = activeNonce s + 1)
  /\ (forall env s0 s1 ix,
        initializeSplit env s0 = (s1, [SubmitInitialize ix true]) ->
        activeNonce s1 = nonce s0 /\ nonce s1 = nonce s0 + 1
        /\ exists w p1 p2, builtInitialize ix w p1 p2 (nonce s0))
  /\ (forall env s0 s1 ix c0,
        executeSplit env s0 = (s1, [SubmitExecute ix c0]) ->
        exists w, builtExecute ix w (activeNonce s0)).
Proof.
  intros Hrun Hi.
  destruct (SessionFacts.initialState_invariant randomNonce) as (Hsh0 & Hno0 & Hlog0).
  destruct (SessionFacts.run_invariant _ _ _ _ _ Hrun Hsh0 Hno0 Hlog0)
    as (Hsh & Hno & Hlog).
  cbn [app] in Hno, Hlog.
  split; [|split; [|split]].
  - destruct (Hlog _ _ Hi) as (ixI & wI & wE & p1 & p2 & n & Hlast & HbI & HbE).
    exists ixI, wI, wE, p1, p2, n.
    split; [exact Hlast|split; [exact HbI|split; [exact HbE|]]].
    destruct HbI as (r1 & r2 & HixI). destruct HbE as (r1' & r2' & lamports & HixE).
    apply InstructionFacts.createInitialize_inv in HixI as (pdaI & bI & _ & HfI & ->).
    apply InstructionFacts.createExecute_inv in HixE as (pdaE & bE & _ & _ & HfE & ->).
    split; [reflexivity|split; [reflexivity|]].
    intros ->. rewrite HfI in HfE. inversion HfE; subst. reflexivity.
  - intros Hstep. exact (proj1 (Hno Hstep)).
  - intros env s0 s1 ix Hinit.
    apply SessionFacts.initializeSplit_cases in Hinit
      as (_ & _ & [(Hout & _)|[(ix' & w & Hout & _)
                               |(ix' & w & Hout & _ & Ha & Hn & _ & Hb)]]);
      try discriminate.
    inversion Hout; subst ix'. eauto 10.
  - intros env s0 s1 ix c0 Hexec.
    apply SessionFacts.executeSplit_cases in Hexec
      as (_ & _ & _ & _ & _ & [Hout|(ix' & w & c' & Hout & _ & Hb)]);
      try discriminate.
    inversion Hout; subst ix'. eauto.
Qed.

(** C10 -- Every slider change leaves percentage1 an integer in [1, 99] and
    percentage2 = 100 - percentage1; the Initialize button is disabled
    whenever the two do not sum to 100; the defaults are (60, 40); so in
    every session every Initialize instruction the interface submits carries
    two positive shares that sum to exactly 100. *)
Theorem submitted_shares_sum_to_100
    (randomNonce : Z) (events : list (Env * Event))
    (s : State) (log : list Submission) :
  run events (initialState randomNonce) = (s, log) ->
  (forall env position s0,
      let s1 := fst (handle env (ChangeSlider position) s0) in
      1 <= percentage1 s1 <= 99 /\ percentage2 s1 = 100 - percentage1 s1)
  /\ (forall env s0,
      percentage1 s0 + percentage2 s0 <> 100 -> initializeDisabled env s0 = true)
  /\ percentage1 (initialState randomNonce) = 60
  /\ percentage2 (initialState randomNonce) = 40
  /\ (1 <= percentage1 s <= 99 /\ percentage2 s = 100 - percentage1 s)
  /\ (forall i ix c0,
      log !! i = Some (SubmitInitialize ix c0) ->
      exists p1 p2,
        carriedShares ix = Some (p1, p2) /\ 0 < p1 /\ 0 < p2 /\ p1 + p2 = 100).
Proof.
  intros Hrun.
  destruct (SessionFacts.initialState_invariant randomNonce) as (Hsh0 & Hno0 & Hlog0).
  destruct (SessionFacts.run_invariant _ _ _ _ _ Hrun Hsh0 Hno0 Hlog0)
    as (Hsh & Hno & Hlog).
  cbn [app] in Hno, Hlog.
  split; [|split; [|split; [|split; [|split]]]].
  - intros env position s0. cbn [handle fst]. unfold rangeValue.
    SessionFacts.state_simpl. lia.
  - intros env s0 Hsum. unfold initializeDisabled.
    destruct (Z.eqb_spec (percentage1 s0 + percentage2 s0) 100) as [Heq|_];
      [contradiction|].
    cbn [negb]. rewrite !orb_true_r. reflexivity.
  - reflexivity.
  - reflexivity.
  - exact Hsh.
  - intros i ix c0 Hi.
    destruct (Hlog _ _ Hi) as (w & p1 & p2 & n & (r1 & r2 & Hix) & Hrange & Hcompl).
    apply InstructionFacts.createInitialize_inv in Hix as (pda & bump & _ & _ & ->).
    exists p1, p2. unfold carriedShares.
    change (data _ !! 8%nat) with (Some (Bytes.of_Z p1)).
    change (data _ !! 9%nat) with (Some (Bytes.of_Z p2)).
    cbv beta iota.
    rewrite !BytesFacts.to_of_Z, !Z.mod_small by lia.
    split; [reflexivity|lia].
Qed.

End SessionClaims.

(** A session in which one wallet initializes and executes: the Execute
    instruction names the record address of the Initialize. *)
Lemma execute_targets_last_initialize_witness :
  exists s ixI ixE,
    SplitInterface.run (H := Examples.crypto) (Examples.session (Examples.connected Examples.alice))
      (SplitInterface.initialState 41)
    = (s, [SplitInterface.SubmitInitialize ixI true;
           SplitInterface.SubmitExecute ixE true])
    /\ Web3.accounts ixE !! 0%nat = Web3.accounts ixI !! 0%nat
    /\ SplitInterface.nonce s = 42 /\ SplitInterface.activeNonce s = 41.
Proof.
  eexists. eexists. eexists.
  assert (SplitInterface.run (H := Examples.crypto) (Examples.session (Examples.connected Examples.alice))
            (SplitInterface.initialState 41)
          = (_, [SplitInterface.SubmitInitialize _ true;
                 SplitInterface.SubmitExecute _ true])) as Hrun
    by (vm_compute; reflexivity).
  split; [exact Hrun|].
  destruct (execute_targets_last_initialize (H := Examples.crypto)
              41 _ _ _ 1%nat _ true Hrun eq_refl)
    as ((ixI & wI & wE & p1 & p2 & n & Hlast & _ & _ & HwI & HwE & Hsame) & _).
  cbn [take SplitInterface.lastInitialize] in Hlast. inversion Hlast; subst ixI.
  split; [|split; reflexivity].
  apply Hsame.
  cbn in HwI, HwE. congruence.
Defined.

(** C9 fails as stated: alice initializes, then the connected wallet
    changes to mallory and Execute is clicked; the Execute instruction is
    built from the same nonce but names mallory as owner and another record
    address (the cluster rejects it). *)
Lemma wallet_switch_targets_another_address :
  exists s ixI ixE pdaI pdaE,
    SplitInterface.run (H := Examples.crypto)
      (Examples.session (Examples.refused Examples.mallory))
      (SplitInterface.initialState 41)
    = (s, [SplitInterface.SubmitInitialize ixI true;
           SplitInterface.SubmitExecute ixE false])
    /\ Web3.accounts ixI !! 1%nat = Some Examples.alice
    /\ Web3.accounts ixE !! 1%nat = Some Examples.mallory
    /\ Web3.accounts ixI !! 0%nat = Some pdaI
    /\ Web3.accounts ixE !! 0%nat = Some pdaE
    /\ pdaI <> pdaE
    /\ SplitInterface.activeNonce s = 41.
Proof.
  do 5 eexists.
  split; [vm_compute; reflexivity|].
  split; [reflexivity|split; [reflexivity|]].
  split; [reflexivity|split; [reflexivity|]].
  split; [discriminate|reflexivity].
Qed.

(** A session that moves the slider to 70: the Initialize it submits
    carries the shares 70 and 30. *)
Lemma submitted_shares_sum_to_100_witness :
  exists s ixI ixE,
    SplitInterface.run (H := Examples.crypto) (Examples.session (Examples.connected Examples.alice))
      (SplitInterface.initialState 41)
    = (s, [SplitInterface.SubmitInitialize ixI true;
           SplitInterface.SubmitExecute ixE true])
    /\ SplitInterface.carriedShares ixI = Some (70, 30).
Proof.
  eexists. eexists. eexists.
  assert (SplitInterface.run (H := Examples.crypto) (Examples.session (Examples.connected Examples.alice))
            (SplitInterface.initialState 41)
          = (_, [SplitInterface.SubmitInitialize _ true;
                 SplitInterface.SubmitExecute _ true])) as Hrun
    by (vm_compute; reflexivity).
  split; [exact Hrun|].
  destruct (submitted_shares_sum_to_100 (H := Examples.crypto) 41 _ _ _ Hrun)
    as (_ & _ & _ & _ & _ & Hshares).
  destruct (Hshares 0%nat _ true eq_refl) as (p1 & p2 & Hcarried & _).
  pose proof Hcarried as Hvalue. vm_compute in Hvalue.
  inversion Hvalue; subst p1 p2. exact Hcarried.
Defined.

(** * The ledger *)

Module LedgerFacts.
Import Ledger.

Lemma balance_credit_eq who amount (b : gmap PublicKey Z) :
  balance (credit who amount b) who = balance b who + amount.
Proof. unfold balance at 1, credit. rewrite lookup_insert_eq. reflexivity. Qed.

Lemma balance_credit_ne who other amount (b : gmap PublicKey Z) :
  who <> other -> balance (credit who amount b) other = balance b other.
Proof.
  intros Hne. unfold balance at 1, credit.
  rewrite lookup_insert_ne by exact Hne. reflexivity.
Qed.

Lemma balance_debit_eq who amount (b : gmap PublicKey Z) :
  balance (debit who amount b) who = balance b who - amount.
Proof. unfold balance at 1, debit. rewrite lookup_insert_eq. reflexivity. Qed.

Lemma balance_debit_ne who other amount (b : gmap PublicKey Z) :
  who <> other -> balance (debit who amount b) other = balance b other.
Proof.
  intros Hne. unfold balance at 1, debit.
  rewrite lookup_insert_ne by exact Hne. reflexivity.
Qed.

Lemma transfer_ok from to amount (b : gmap PublicKey Z) :
  amount <= balance b from ->
  transfer from to amount b = Ok (credit to amount (debit from amount b)).
Proof.
  intros Hle. unfold transfer.
  destruct (Z.ltb_spec (balance b from) amount); [lia|reflexivity].
Qed.

Lemma transfer_inv from to amount (b b' : gmap PublicKey Z) :
  transfer from to amount b = Ok b' ->
  amount <= balance b from /\ b' = credit to amount (debit from amount b).
Proof.
  unfold transfer.
  destruct (Z.ltb_spec (balance b from) amount); [discriminate|].
  intros [= <-]. auto.
Qed.

(** The sender's balance after a transfer, whoever receives it. *)
Lemma balance_after_transfer_from from to amount (b : gmap PublicKey Z) :
  0 <= amount ->
  balance b from - amount <= balance (credit to amount (debit from amount b)) from.
Proof.
  intros Hpos. destruct (decide (to = from)) as [->|Hne].
  - rewrite balance_credit_eq, balance_debit_eq. lia.
  - rewrite balance_credit_ne, balance_debit_eq by exact Hne. lia.
Qed.

(** The checked product of the README snippet never overflows on a u64
    amount and a u8 percentage, and is the floor of the exact quotient. *)
Lemma amount1_of_u64 amount percentage :
  Bytes.is_u64 amount -> Bytes.is_u8 percentage ->
  amount * percentage <= U128_MAX /\
  amount1_of amount percentage = Ok (as_u64 (amount * percentage / 100)).
Proof.
  unfold Bytes.is_u64, Bytes.is_u8, U128_MAX. intros Ha Hp.
  assert (amount * percentage <= 2 ^ 128 - 1) as Hprod.
  { assert (amount * percentage < 2 ^ 64 * 2 ^ 8) by nia.
    change (2 ^ 64 * 2 ^ 8) with (2 ^ 72) in *.
    assert (2 ^ 72 < 2 ^ 128) by (apply Z.pow_lt_mono_r; lia). lia. }
  split; [exact Hprod|].
  unfold amount1_of, checked_mul_u128, checked_div_u128, U128_MAX.
  destruct (Z.leb_spec (amount * percentage) (2 ^ 128 - 1)); [|lia].
  reflexivity.
Qed.

Lemma split_amounts_valid amount percentage :
  Bytes.is_u64 amount -> 0 <= percentage <= 100 ->
  let amount1 := amount * percentage / 100 in
  split_amounts amount percentage = Ok (amount1, amount - amount1)
  /\ 0 <= amount1 <= amount.
Proof.
  intros Ha Hp amount1.
  assert (0 <= amount1 <= amount) as Hrange.
  { unfold Bytes.is_u64 in Ha. subst amount1. split.
    - apply Z.div_pos; nia.
    - apply Z.div_le_upper_bound; nia. }
  split; [|exact Hrange].
  unfold split_amounts.
  destruct (amount1_of_u64 amount percentage Ha) as [_ ->].
  { unfold Bytes.is_u8. change (2 ^ 8) with 256. lia. }
  cbn [bind]. unfold as_u64. fold amount1.
  unfold Bytes.is_u64 in Ha. rewrite Z.mod_small by lia.
  unfold checked_sub_u64.
  destruct (Z.leb_spec amount1 amount); [reflexivity|lia].
Qed.

(** A successful Execute passed every check of section 4.3 and made the
    two transfers. *)
Lemma execute_inv caller now address amount r1 r2 l l' :
  execute caller now address amount r1 r2 l = Ok l' ->
  exists a amount1 amount2 b1 b2,
    records l !! address = Some a
    /\ executed (record a) = false
    /\ caller = owner (record a)
    /\ r1 = recipient1 (record a) /\ r2 = recipient2 (record a)
    /\ minimumTransferThreshold <= amount
    /\ split_amounts amount (share1 (record a)) = Ok (amount1, amount2)
    /\ transfer (owner (record a)) (recipient1 (record a)) amount1 (balances l) = Ok b1
    /\ transfer (owner (record a)) (recipient2 (record a)) amount2 b1 = Ok b2
    /\ l' = {| records :=
                 <[address := {| record := mark_executed now (record a);
                                 deposit := deposit a |}]> (records l);
               balances := b2 |}.
Proof.
  unfold execute.
  destruct (records l !! address) as [a|]; [|discriminate].
  cbv zeta.
  destruct (executed (record a)) eqn:Hex; [discriminate|].
  case_bool_decide as Hc; cbn [negb]; [|discriminate].
  case_bool_decide as H1; cbn [andb negb]; [|discriminate].
  case_bool_decide as H2; cbn [andb negb]; [|discriminate].
  destruct (Z.ltb_spec amount minimumTransferThreshold) as [|Hmin]; [discriminate|].
  destruct (split_amounts amount (share1 (record a))) as [[amount1 amount2]|e]
    eqn:Hsplit; cbn [bind]; [|discriminate].
  destruct (transfer (owner (record a)) (recipient1 (record a)) amount1 (balances l))
    as [b1|e] eqn:Ht1; cbn [bind]; [|discriminate].
  destruct (transfer (owner (record a)) (recipient2 (record a)) amount2 b1)
    as [b2|e] eqn:Ht2; cbn [bind]; [|discriminate].
  intros [= <-]. exists a, amount1, amount2, b1, b2. auto 12.
Qed.

End LedgerFacts.

Section ExecuteClaims.
Import Ledger.

(** C1 -- For a record whose shares sum to 100 and are both positive and an
    amount that is a u64 and at least the minimum transfer threshold: the
    product amount * share1 fits the 128-bit intermediate, amount1 is
    floor(amount * share1 / 100), amount2 is amount - amount1, both are
    non-negative and they sum to amount exactly.  Every successful Execute
    moves exactly amount1 from the owner to recipient1 and amount2 from the
    owner to recipient2, and Execute does succeed when its other
    preconditions hold (record not executed, caller is the owner, the
    recipients match, the owner's balance covers the amount).  Shares 33/67
    of 1000 give 330 and 670. *)
Theorem execute_pays_exact_shares
    (l : State) (address caller r1 r2 : PublicKey) (a : Allocation)
    (now amount : Z) :
  let r := record a in
  let amount1 := amount * share1 r / 100 in
  let amount2 := amount - amount1 in
  records l !! address = Some a ->
  share1 r + share2 r = 100 -> 0 < share1 r -> 0 < share2 r ->
  Bytes.is_u64 amount -> minimumTransferThreshold <= amount ->
  amount * share1 r <= U128_MAX
  /\ split_amounts amount (share1 r) = Ok (amount1, amount2)
  /\ 0 <= amount1 /\ 0 <= amount2 /\ amount1 + amount2 = amount
  /\ (forall l',
        execute caller now address amount r1 r2 l = Ok l' ->
        balances l'
        = credit (recipient2 r) amount2
            (debit (owner r) amount2
               (credit (recipient1 r) amount1
                  (debit (owner r) amount1 (balances l))))
        /\ (owner r <> recipient1 r -> owner r <> recipient2 r ->
            recipient1 r <> recipient2 r ->
            balance (balances l') (recipient1 r)
              = balance (balances l) (recipient1 r) + amount1
            /\ balance (balances l') (recipient2 r)
              = balance (balances l) (recipient2 r) + amount2
            /\ balance (balances l') (owner r)
              = balance (balances l) (owner r) - amount))
  /\ (executed r = false -> caller = owner r ->
      r1 = recipient1 r -> r2 = recipient2 r ->
      amount <= balance (balances l) (owner r) ->
      is_ok (execute caller now address amount r1 r2 l) = true)
  /\ split_amounts 1000 33 = Ok (330, 670).
Proof.
  intros r amount1 amount2 Hrec Hsum Hs1 Hs2 Hu64 Hmin.
  assert (0 <= share1 r <= 100) as Hshare by lia.
  destruct (LedgerFacts.split_amounts_valid amount (share1 r) Hu64 Hshare)
    as [Hsplit Hrange].
  fold amount1 in Hsplit, Hrange. fold amount2 in Hsplit.
  destruct (LedgerFacts.amount1_of_u64 amount (share1 r) Hu64) as [Hprod _].
  { unfold Bytes.is_u8. change (2 ^ 8) with 256. lia. }
  split; [exact Hprod|]. split; [exact Hsplit|].
  split; [lia|]. split; [unfold amount2; lia|]. split; [unfold amount2; lia|].
  split; [|split; [|reflexivity]].
  - intros l' Hexec.
    apply LedgerFacts.execute_inv in Hexec
      as (a' & x1 & x2 & b1 & b2 & Hrec' & _ & _ & _ & _ & _ & Hsplit' & Ht1 & Ht2 & ->).
    rewrite Hrec in Hrec'. inversion Hrec'; subst a'. fold r in Hsplit', Ht1, Ht2.
    rewrite Hsplit in Hsplit'. inversion Hsplit'; subst x1 x2.
    apply LedgerFacts.transfer_inv in Ht1 as [_ ->].
    apply LedgerFacts.transfer_inv in Ht2 as [_ ->].
    cbn [balances]. split; [reflexivity|].
    intros Ho1 Ho2 H12. split; [|split].
    + rewrite LedgerFacts.balance_credit_ne by congruence.
      rewrite LedgerFacts.balance_debit_ne by exact Ho1.
      rewrite LedgerFacts.balance_credit_eq.
      rewrite LedgerFacts.balance_debit_ne by exact Ho1. reflexivity.
    + rewrite LedgerFacts.balance_credit_eq.
      rewrite LedgerFacts.balance_debit_ne by exact Ho2.
      rewrite LedgerFacts.balance_credit_ne by exact H12.
      rewrite LedgerFacts.balance_debit_ne by exact Ho2. reflexivity.
    + rewrite LedgerFacts.balance_credit_ne by congruence.
      rewrite LedgerFacts.balance_debit_eq.
      rewrite LedgerFacts.balance_credit_ne by congruence.
      rewrite LedgerFacts.balance_debit_eq. unfold amount2. lia.
  - intros Hfresh -> -> -> Hfunds.
    unfold execute. rewrite Hrec. cbv zeta. fold r. rewrite Hfresh.
    rewrite !bool_decide_eq_true_2 by reflexivity. cbn [negb andb].
    destruct (Z.ltb_spec amount minimumTransferThreshold); [lia|].
    rewrite Hsplit. cbn [bind].
    rewrite LedgerFacts.transfer_ok by lia. cbn [bind].
    rewrite LedgerFacts.transfer_ok; [reflexivity|].
    pose proof (LedgerFacts.balance_after_transfer_from
                  (owner r) (recipient1 r) amount1 (balances l)) as Hleft.
    unfold amount2. lia.
Qed.

End ExecuteClaims.

Module LifecycleFacts.
Import Ledger.

Lemma deallocate_lookup_eq address payer l :
  records (deallocate address payer l) !! address = None.
Proof.
  unfold deallocate. destruct (records l !! address) as [a|] eqn:Ha.
  - cbn [records]. apply lookup_delete_eq.
  - exact Ha.
Qed.

Lemma deallocate_lookup_ne address other payer l :
  address <> other ->
  records (deallocate address payer l) !! other = records l !! other.
Proof.
  intros Hne. unfold deallocate. destruct (records l !! address) as [a|].
  - cbn [records]. apply lookup_delete_ne. exact Hne.
  - reflexivity.
Qed.

Lemma deallocate_balances address payer l a :
  records l !! address = Some a ->
  balances (deallocate address payer l) = credit payer (deposit a) (balances l).
Proof. intros Ha. unfold deallocate. rewrite Ha. reflexivity. Qed.

Lemma cancel_inv caller address l l' :
  cancel caller address l = Ok l' ->
  exists a, records l !! address = Some a
            /\ caller = owner (record a) /\ executed (record a) = false
            /\ l' = deallocate address (owner (record a)) l.
Proof.
  unfold cancel. destruct (records l !! address) as [a|]; [|discriminate].
  cbv zeta. case_bool_decide as Hc; cbn [negb]; [|discriminate].
  destruct (executed (record a)) eqn:Hex; [discriminate|].
  intros [= <-]. exists a. auto.
Qed.

Lemma close_inv caller address l l' :
  close caller address l = Ok l' ->
  exists a, records l !! address = Some a
            /\ caller = owner (record a) /\ executed (record a) = true
            /\ l' = deallocate address (owner (record a)) l.
Proof.
  unfold close. destruct (records l !! address) as [a|]; [|discriminate].
  cbv zeta. case_bool_decide as Hc; cbn [negb]; [|discriminate].
  destruct (executed (record a)) eqn:Hex; cbn [negb]; [|discriminate].
  intros [= <-]. exists a. auto.
Qed.

Section Machine.
Variable recordAddress : PublicKey -> Z -> PublicKey * Z.
Variable reserved : PublicKey -> bool.
Variable storageDeposit : Z.

(** A successful Initialize passed every check of section 4.2 and
    allocated the record at the derived, free address. *)
Lemma initialize_inv caller now s1 s2 seq r1 r2 l l' :
  initialize recordAddress reserved storageDeposit caller now s1 s2 seq r1 r2 l = Ok l' ->
  s1 + s2 = 100 /\ 0 < s1 /\ 0 < s2 /\ r1 <> r2
  /\ reserved r1 = false /\ reserved r2 = false
  /\ records l !! (recordAddress caller seq).1 = None
  /\ l' = {| records :=
               <[(recordAddress caller seq).1 :=
                   {| record :=
                        {| owner := caller; recipient1 := r1; recipient2 := r2;
                           share1 := s1; share2 := s2; sequence := seq;
                           executed := false; createdAt := now; executedAt := 0;
                           addressSalt := (recordAddress caller seq).2 |};
                      deposit := storageDeposit |}]> (records l);
             balances := debit caller storageDeposit (balances l) |}.
Proof.
  unfold initialize.
  destruct (Z.eqb_spec (s1 + s2) 100) as [Hsum|]; cbn [negb]; [|discriminate].
  destruct (Z.ltb_spec 0 s1) as [Hs1|]; cbn [andb negb]; [|discriminate].
  destruct (Z.ltb_spec 0 s2) as [Hs2|]; cbn [andb negb]; [|discriminate].
  case_bool_decide as Hdup; [discriminate|].
  destruct (reserved r1) eqn:Hr1; cbn [orb]; [discriminate|].
  destruct (reserved r2) eqn:Hr2; [discriminate|].
  destruct (recordAddress caller seq) as [address salt]. cbn [fst snd].
  unfold allocate.
  destruct (records l !! address) eqn:Hfree; [discriminate|].
  intros [= <-]. auto 10.
Qed.

Lemma initialize_ok caller now s1 s2 seq r1 r2 l :
  s1 + s2 = 100 -> 0 < s1 -> 0 < s2 -> r1 <> r2 ->
  reserved r1 = false -> reserved r2 = false ->
  records l !! (recordAddress caller seq).1 = None ->
  is_ok (initialize recordAddress reserved storageDeposit
           caller now s1 s2 seq r1 r2 l) = true.
Proof.
  intros Hsum Hs1 Hs2 Hdup Hr1 Hr2 Hfree. unfold initialize.
  destruct (Z.eqb_spec (s1 + s2) 100); [|contradiction]. cbn [negb].
  destruct (Z.ltb_spec 0 s1); [|lia].
  destruct (Z.ltb_spec 0 s2); [|lia]. cbn [andb negb].
  rewrite bool_decide_eq_false_2 by exact Hdup.
  rewrite Hr1, Hr2. cbn [orb].
  destruct (recordAddress caller seq) as [address salt]. cbn [fst] in Hfree.
  unfold allocate. rewrite Hfree. reflexivity.
Qed.

End Machine.
End LifecycleFacts.

Section LifecycleClaims.
Import Ledger.
Variable recordAddress : PublicKey -> Z -> PublicKey * Z.
Variable reserved : PublicKey -> bool.
Variable storageDeposit : Z.

(** C6 -- Initialize succeeds exactly when share1 + share2 = 100, both
    shares are positive, the recipients are distinct, neither is reserved
    and the derived address holds no record; the record it persists holds
    the inputs exactly.  Otherwise it fails with the error of the first
    failing check, in the order of section 4.2 (InvalidPercentages when the
    sum is not 100, ZeroPercentage when a share is 0, DuplicateRecipient when
    the recipients are equal, InvalidRecipient when one is reserved, and the
    allocator's refusal on an occupied address), and the ledger is left as it
    was. *)
Theorem initialize_succeeds_exactly_when_valid
    (caller : PublicKey) (now s1 s2 seq : Z) (r1 r2 : PublicKey) (l : State) :
  let address := (recordAddress caller seq).1 in
  let outcome :=
    initialize recordAddress reserved storageDeposit caller now s1 s2 seq r1 r2 l in
  (is_ok outcome = true <->
     s1 + s2 = 100 /\ 0 < s1 /\ 0 < s2 /\ r1 <> r2
     /\ reserved r1 = false /\ reserved r2 = false
     /\ records l !! address = None)
  /\ (forall l',
        outcome = Ok l' ->
        exists r,
          records l' !! address = Some {| record := r; deposit := storageDeposit |}
          /\ share1 r = s1 /\ share2 r = s2
          /\ owner r = caller /\ recipient1 r = r1 /\ recipient2 r = r2
          /\ sequence r = seq /\ executed r = false /\ createdAt r = now)
  /\ (s1 + s2 <> 100 -> outcome = Err InvalidPercentages)
  /\ (s1 + s2 = 100 -> s1 = 0 \/ s2 = 0 -> outcome = Err ZeroPercentage)
  /\ (s1 + s2 = 100 -> 0 < s1 -> 0 < s2 -> r1 = r2 ->
      outcome = Err DuplicateRecipient)
  /\ (s1 + s2 = 100 -> 0 < s1 -> 0 < s2 -> r1 <> r2 ->
      reserved r1 = true \/ reserved r2 = true ->
      outcome = Err InvalidRecipient)
  /\ (s1 + s2 = 100 -> 0 < s1 -> 0 < s2 -> r1 <> r2 ->
      reserved r1 = false -> reserved r2 = false ->
      is_Some (records l !! address) ->
      outcome = Err AddressInUse)
  /\ (is_ok outcome = false ->
      submit recordAddress reserved storageDeposit caller now
        (Initialize s1 s2 seq r1 r2) l = l).
Proof.
  intros address outcome.
  split; [split|split; [|split; [|split; [|split; [|split; [|split]]]]]].
  - intros Hok. subst outcome.
    destruct (initialize _ _ _ _ _ _ _ _ _ _ l) as [l'|e] eqn:Hinit; [|discriminate].
    apply LifecycleFacts.initialize_inv in Hinit. tauto.
  - intros (Hsum & Hs1 & Hs2 & Hdup & Hr1 & Hr2 & Hfree).
    apply LifecycleFacts.initialize_ok; assumption.
  - intros l' Hinit. subst outcome.
    apply LifecycleFacts.initialize_inv in Hinit as (_ & _ & _ & _ & _ & _ & _ & ->).
    eexists. cbn [records]. fold address. rewrite lookup_insert_eq.
    split; [reflexivity|]. cbn. auto 10.
  - intros Hsum. subst outcome. unfold initialize.
    destruct (Z.eqb_spec (s1 + s2) 100); [contradiction|reflexivity].
  - intros Hsum Hzero. subst outcome. unfold initialize.
    destruct (Z.eqb_spec (s1 + s2) 100); [|contradiction]. cbn [negb].
    destruct (Z.ltb_spec 0 s1); destruct (Z.ltb_spec 0 s2); cbn [andb negb];
      try reflexivity; lia.
  - intros Hsum Hs1 Hs2 Hdup. subst outcome. unfold initialize.
    destruct (Z.eqb_spec (s1 + s2) 100); [|contradiction]. cbn [negb].
    destruct (Z.ltb_spec 0 s1); [|lia]. destruct (Z.ltb_spec 0 s2); [|lia].
    cbn [andb negb]. rewrite bool_decide_eq_true_2 by exact Hdup. reflexivity.
  - intros Hsum Hs1 Hs2 Hdup Hres. subst outcome. unfold initialize.
    destruct (Z.eqb_spec (s1 + s2) 100); [|contradiction]. cbn [negb].
    destruct (Z.ltb_spec 0 s1); [|lia]. destruct (Z.ltb_spec 0 s2); [|lia].
    cbn [andb negb]. rewrite bool_decide_eq_false_2 by exact Hdup.
    destruct Hres as [-> | ->]; [reflexivity|].
    rewrite orb_true_r. reflexivity.
  - intros Hsum Hs1 Hs2 Hdup Hr1 Hr2 [a Hused]. subst outcome address.
    unfold initialize.
    destruct (Z.eqb_spec (s1 + s2) 100); [|contradiction]. cbn [negb].
    destruct (Z.ltb_spec 0 s1); [|lia]. destruct (Z.ltb_spec 0 s2); [|lia].
    cbn [andb negb]. rewrite bool_decide_eq_false_2 by exact Hdup.
    rewrite Hr1, Hr2. cbn [orb].
    destruct (recordAddress caller seq) as [addr salt]. cbn [fst] in Hused.
    unfold allocate. rewrite Hused. reflexivity.
  - intros Hfail. unfold submit, dispatch. fold outcome.
    destruct outcome; [discriminate|reflexivity].
Qed.

(** C2 -- The executed flag of a record only moves from false to true:
    across any operation by any caller a record that is still there is
    either unchanged or the same record marked executed by an Execute, and a
    record whose flag is set stays exactly as it is until the owner's Close
    destroys it.  Every Execute against a record whose flag is set fails
    with AlreadyExecuted whatever the amount, the caller and the recipients
    supplied, and leaves the ledger (records and balances) as it was. *)
Theorem executed_flag_is_never_reset
    (l : State) (address : PublicKey) (a : Allocation) :
  records l !! address = Some a ->
  (forall caller now op,
      let l' := submit recordAddress reserved storageDeposit caller now op l in
      match records l' !! address with
      | Some a' =>
          a' = a
          \/ (executed (record a) = false
              /\ a' = {| record := mark_executed now (record a);
                         deposit := deposit a |})
      | None => True
      end)
  /\ (executed (record a) = true ->
      (forall caller now op,
          let l' := submit recordAddress reserved storageDeposit caller now op l in
          records l' !! address = Some a
          \/ (records l' !! address = None
              /\ op = Close address /\ caller = owner (record a)))
      /\ (forall caller now amount r1 r2,
          execute caller now address amount r1 r2 l = Err AlreadyExecuted
          /\ submit recordAddress reserved storageDeposit caller now
               (Execute address amount r1 r2) l = l)).
Proof.
  intros Hrec.
  assert (forall caller now op,
             let l' := submit recordAddress reserved storageDeposit caller now op l in
             records l' !! address = Some a
             \/ (executed (record a) = false
                 /\ records l' !! address
                    = Some {| record := mark_executed now (record a);
                              deposit := deposit a |})
             \/ (records l' !! address = None
                 /\ ((op = Cancel address /\ executed (record a) = false)
                     \/ (op = Close address /\ executed (record a) = true))
                 /\ caller = owner (record a))) as Hstep.
  { intros caller now op l'. subst l'. unfold submit, dispatch.
    destruct op as [s1 s2 seq r1 r2|address0 amount r1 r2|address0|address0].
    - destruct (initialize _ _ _ _ _ _ _ _ _ _ l) as [l'|e] eqn:Hinit; [|auto].
      apply LifecycleFacts.initialize_inv in Hinit
        as (_ & _ & _ & _ & _ & _ & Hfree & ->).
      left. cbn [records]. rewrite lookup_insert_ne; [exact Hrec|].
      intros Heq. rewrite Heq, Hrec in Hfree. discriminate.
    - destruct (execute caller now address0 amount r1 r2 l) as [l'|e] eqn:Hexec; [|auto].
      apply LedgerFacts.execute_inv in Hexec
        as (a0 & x1 & x2 & b1 & b2 & Hrec0 & Hfresh & _ & _ & _ & _ & _ & _ & _ & ->).
      cbn [records]. destruct (decide (address0 = address)) as [->|Hne].
      + right; left. rewrite Hrec in Hrec0. inversion Hrec0; subst a0.
        split; [exact Hfresh|apply lookup_insert_eq].
      + left. rewrite lookup_insert_ne by exact Hne. exact Hrec.
    - destruct (cancel caller address0 l) as [l'|e] eqn:Hcancel; [|auto].
      apply LifecycleFacts.cancel_inv in Hcancel as (a0 & Hrec0 & Hcaller & Hfresh & ->).
      destruct (decide (address0 = address)) as [->|Hne].
      + right; right. rewrite Hrec in Hrec0. inversion Hrec0; subst a0.
        split; [apply LifecycleFacts.deallocate_lookup_eq|auto].
      + left. rewrite LifecycleFacts.deallocate_lookup_ne by exact Hne. exact Hrec.
    - destruct (close caller address0 l) as [l'|e] eqn:Hclose; [|auto].
      apply LifecycleFacts.close_inv in Hclose as (a0 & Hrec0 & Hcaller & Hdone & ->).
      destruct (decide (address0 = address)) as [->|Hne].
      + right; right. rewrite Hrec in Hrec0. inversion Hrec0; subst a0.
        split; [apply LifecycleFacts.deallocate_lookup_eq|auto].
      + left. rewrite LifecycleFacts.deallocate_lookup_ne by exact Hne. exact Hrec. }
  split.
  - intros caller now op l'.
    destruct (Hstep caller now op) as [Hsame|[[Hfresh Hmarked]|[Hgone _]]];
      fold l' in Hsame || fold l' in Hmarked || fold l' in Hgone.
    + rewrite Hsame. left. reflexivity.
    + rewrite Hmarked. right. split; [exact Hfresh|reflexivity].
    + rewrite Hgone. exact I.
  - intros Hex.
    assert (forall caller now amount r1 r2,
               execute caller now address amount r1 r2 l = Err AlreadyExecuted)
      as Hreplay.
    { intros. unfold execute. rewrite Hrec. cbv zeta. rewrite Hex. reflexivity. }
    split.
    + intros caller now op l'.
      destruct (Hstep caller now op)
        as [Hsame|[[Hfresh _]|(Hgone & [[_ Hfresh]|[Hop _]] & Hcaller)]];
        try (rewrite Hex in Hfresh; discriminate).
      * left. exact Hsame.
      * right. auto.
    + intros caller now amount r1 r2. split; [apply Hreplay|].
      unfold submit, dispatch. rewrite Hreplay. reflexivity.
Qed.

(** A caller other than the owner (claim C7, which the sources leave
    open).  For every record and every caller other than its owner, Execute,
    Cancel and Close all fail and leave the record and all balances as they
    were; Cancel and Close answer UnauthorizedSender, and so does Execute on
    a record not yet executed.  On an executed record the answer of Execute
    depends on which of its first two checks runs first: [execute] runs them
    in the order section 4.3 lists them and answers AlreadyExecuted, a
    handler testing the caller first would answer UnauthorizedSender; no
    source shows the order and no test reaches that input. *)
Lemma non_owner_is_rejected
    (l : State) (address caller : PublicKey) (a : Allocation)
    (now amount : Z) (r1 r2 : PublicKey) :
  records l !! address = Some a ->
  caller <> owner (record a) ->
  cancel caller address l = Err UnauthorizedSender
  /\ close caller address l = Err UnauthorizedSender
  /\ execute caller now address amount r1 r2 l
     = Err (if executed (record a) then AlreadyExecuted else UnauthorizedSender)
  /\ submit recordAddress reserved storageDeposit caller now (Cancel address) l = l
  /\ submit recordAddress reserved storageDeposit caller now (Close address) l = l
  /\ submit recordAddress reserved storageDeposit caller now
       (Execute address amount r1 r2) l = l.
Proof.
  intros Hrec Hother.
  assert (cancel caller address l = Err UnauthorizedSender) as Hcancel.
  { unfold cancel. rewrite Hrec. cbv zeta.
    rewrite bool_decide_eq_false_2 by exact Hother. reflexivity. }
  assert (close caller address l = Err UnauthorizedSender) as Hclose.
  { unfold close. rewrite Hrec. cbv zeta.
    rewrite bool_decide_eq_false_2 by exact Hother. reflexivity. }
  assert (execute caller now address amount r1 r2 l
          = Err (if executed (record a) then AlreadyExecuted else UnauthorizedSender))
    as Hexec.
  { unfold execute. rewrite Hrec. cbv zeta.
    destruct (executed (record a)); [reflexivity|].
    rewrite bool_decide_eq_false_2 by exact Hother. reflexivity. }
  unfold submit, dispatch. rewrite Hcancel, Hclose, Hexec. auto 10.
Qed.

(** C8 -- For an existing record and its owner as caller: Cancel succeeds
    exactly when the record is not executed and fails with AlreadyExecuted
    otherwise; Close succeeds exactly when it is executed and fails with
    NotExecuted otherwise; a success destroys the record, credits its storage
    deposit to the owner and touches no other record or balance. *)
Theorem cancel_and_close_by_owner
    (l : State) (address caller : PublicKey) (a : Allocation) :
  records l !! address = Some a ->
  caller = owner (record a) ->
  let destroyed := deallocate address (owner (record a)) l in
  cancel caller address l
    = (if executed (record a) then Err AlreadyExecuted else Ok destroyed)
  /\ close caller address l
    = (if executed (record a) then Ok destroyed else Err NotExecuted)
  /\ is_ok (cancel caller address l) = negb (executed (record a))
  /\ is_ok (close caller address l) = executed (record a)
  /\ records destroyed !! address = None
  /\ balance (balances destroyed) (owner (record a))
     = balance (balances l) (owner (record a)) + deposit a
  /\ (forall other, other <> address ->
        records destroyed !! other = records l !! other)
  /\ (forall who, who <> owner (record a) ->
        balance (balances destroyed) who = balance (balances l) who).
Proof.
  intros Hrec -> destroyed.
  assert (cancel (owner (record a)) address l
          = (if executed (record a) then Err AlreadyExecuted else Ok destroyed))
    as Hcancel.
  { unfold cancel. rewrite Hrec. cbv zeta.
    rewrite bool_decide_eq_true_2 by reflexivity. cbn [negb].
    destruct (executed (record a)); reflexivity. }
  assert (close (owner (record a)) address l
          = (if executed (record a) then Ok destroyed else Err NotExecuted))
    as Hclose.
  { unfold close. rewrite Hrec. cbv zeta.
    rewrite bool_decide_eq_true_2 by reflexivity. cbn [negb].
    destruct (executed (record a)); reflexivity. }
  rewrite Hcancel, Hclose.
  split; [reflexivity|split; [reflexivity|]].
  split; [destruct (executed (record a)); reflexivity|].
  split; [destruct (executed (record a)); reflexivity|].
  subst destroyed.
  split; [apply LifecycleFacts.deallocate_lookup_eq|].
  rewrite (LifecycleFacts.deallocate_balances _ _ _ _ Hrec).
  split; [apply LedgerFacts.balance_credit_eq|].
  split.
  - intros other Hne. apply LifecycleFacts.deallocate_lookup_ne. congruence.
  - intros who Hne. apply LedgerFacts.balance_credit_ne. congruence.
Qed.

End LifecycleClaims.

(** The 33/67 split of 1000 units on the example ledger: bob is paid 330
    and carol 670. *)
Lemma execute_pays_exact_shares_witness :
  exists a,
    Ledger.records Examples.created !! Examples.recordOfAlice = Some a
    /\ Ledger.split_amounts 1000 (Ledger.share1 (Ledger.record a)) = Ok (330, 670)
    /\ is_ok (Ledger.execute Examples.alice 200 Examples.recordOfAlice 1000
                Examples.bob Examples.carol Examples.created) = true
    /\ Ledger.balance (Ledger.balances Examples.paid) Examples.bob = 330
    /\ Ledger.balance (Ledger.balances Examples.paid) Examples.carol = 670.
Proof.
  eexists.
  assert (Ledger.records Examples.created !! Examples.recordOfAlice = Some _) as Hrec
    by (vm_compute; reflexivity).
  split; [exact Hrec|].
  destruct (execute_pays_exact_shares Examples.created Examples.recordOfAlice
              Examples.alice Examples.bob Examples.carol _ 200 1000 Hrec)
    as (_ & Hsplit & _ & _ & _ & _ & Hok & _).
  - reflexivity.
  - reflexivity.
  - reflexivity.
  - unfold Bytes.is_u64. lia.
  - unfold Ledger.minimumTransferThreshold. lia.
  - split; [exact Hsplit|].
    split; [apply Hok; vm_compute; try reflexivity; discriminate|].
    split; vm_compute; reflexivity.
Defined.

(** Initialize on the example ledger: 33/67 is stored as given, 50/30 is
    refused. *)
Lemma initialize_succeeds_exactly_when_valid_witness :
  is_ok (Ledger.initialize Examples.recordAddress Examples.reserved
           Examples.storageDeposit Examples.alice 100 33 67 7
           Examples.bob Examples.carol Examples.genesis) = true
  /\ Ledger.initialize Examples.recordAddress Examples.reserved
       Examples.storageDeposit Examples.alice 100 50 30 8
       Examples.bob Examples.carol Examples.genesis
     = Err Ledger.InvalidPercentages.
Proof.
  split.
  - apply (initialize_succeeds_exactly_when_valid Examples.recordAddress
             Examples.reserved Examples.storageDeposit Examples.alice 100 33 67 7
             Examples.bob Examples.carol Examples.genesis).
    repeat split; try reflexivity; try lia; discriminate.
  - apply (initialize_succeeds_exactly_when_valid Examples.recordAddress
             Examples.reserved Examples.storageDeposit Examples.alice 100 50 30 8
             Examples.bob Examples.carol Examples.genesis).
    lia.
Defined.

(** The executed record of the example ledger refuses a second Execute of
    any amount. *)
Lemma executed_flag_is_never_reset_witness :
  exists a,
    Ledger.records Examples.paid !! Examples.recordOfAlice = Some a
    /\ Ledger.executed (Ledger.record a) = true
    /\ Ledger.execute Examples.alice 300 Examples.recordOfAlice 500000000
         Examples.bob Examples.carol Examples.paid
       = Err Ledger.AlreadyExecuted.
Proof.
  eexists.
  assert (Ledger.records Examples.paid !! Examples.recordOfAlice = Some _) as Hrec
    by (vm_compute; reflexivity).
  split; [exact Hrec|]. split; [reflexivity|].
  destruct (executed_flag_is_never_reset Examples.recordAddress Examples.reserved
              Examples.storageDeposit Examples.paid Examples.recordOfAlice _
              Hrec) as [_ Hset].
  destruct (Hset eq_refl) as [_ Hreplay].
  apply Hreplay.
Defined.

(** mallory against alice's record before it is executed: all three
    operations answer UnauthorizedSender. *)
Lemma non_owner_is_rejected_witness :
  Ledger.cancel Examples.mallory Examples.recordOfAlice Examples.created
    = Err Ledger.UnauthorizedSender
  /\ Ledger.close Examples.mallory Examples.recordOfAlice Examples.created
    = Err Ledger.UnauthorizedSender
  /\ Ledger.execute Examples.mallory 300 Examples.recordOfAlice 5000
       Examples.bob Examples.carol Examples.created
    = Err Ledger.UnauthorizedSender.
Proof.
  assert (exists a, Ledger.records Examples.created !! Examples.recordOfAlice = Some a
                    /\ Ledger.owner (Ledger.record a) = Examples.alice
                    /\ Ledger.executed (Ledger.record a) = false) as (a & Hrec & Ho & Hex).
  { eexists. split; [vm_compute; reflexivity|]. split; reflexivity. }
  destruct (non_owner_is_rejected Examples.recordAddress Examples.reserved
              Examples.storageDeposit Examples.created Examples.recordOfAlice
              Examples.mallory a 300 5000 Examples.bob Examples.carol Hrec)
    as (Hcancel & Hclose & Hexec & _).
  - rewrite Ho. discriminate.
  - rewrite Hex in Hexec. auto.
Defined.

(** alice cancels her fresh record, or closes her executed one, and gets
    the deposit back. *)
Lemma cancel_and_close_by_owner_witness :
  is_ok (Ledger.cancel Examples.alice Examples.recordOfAlice Examples.created) = true
  /\ Ledger.close Examples.alice Examples.recordOfAlice Examples.created
     = Err Ledger.NotExecuted
  /\ is_ok (Ledger.close Examples.alice Examples.recordOfAlice Examples.paid) = true
  /\ Ledger.cancel Examples.alice Examples.recordOfAlice Examples.paid
     = Err Ledger.AlreadyExecuted.
Proof.
  assert (exists a, Ledger.records Examples.created !! Examples.recordOfAlice = Some a
                    /\ Ledger.owner (Ledger.record a) = Examples.alice
                    /\ Ledger.executed (Ledger.record a) = false) as (a & Hrec & Ho & Hex).
  { eexists. split; [vm_compute; reflexivity|]. split; reflexivity. }
  assert (exists a, Ledger.records Examples.paid !! Examples.recordOfAlice = Some a
                    /\ Ledger.owner (Ledger.record a) = Examples.alice
                    /\ Ledger.executed (Ledger.record a) = true) as (a' & Hrec' & Ho' & Hex').
  { eexists. split; [vm_compute; reflexivity|]. split; reflexivity. }
  destruct (cancel_and_close_by_owner Examples.created Examples.recordOfAlice
              Examples.alice a Hrec (eq_sym Ho)) as (Hc & Hcl & Hcok & _).
  destruct (cancel_and_close_by_owner Examples.paid Examples.recordOfAlice
              Examples.alice a' Hrec' (eq_sym Ho')) as (Hc' & Hcl' & _ & Hclok' & _).
  rewrite Hex in *. rewrite Hex' in *.
  split; [exact Hcok|]. split; [exact Hcl|]. split; [exact Hclok'|exact Hc'].
Defined.

(** * Further properties of the client code *)

(** ** lib/instructions.ts beyond the layout *)

Module EncodingFacts.
Import Web3 Instructions.

Lemma byteLength_opp x : BN.byteLength (- x) = BN.byteLength x.
Proof.
  unfold BN.byteLength, BN.bitLength. rewrite Z.abs_opp.
  destruct (Z.eqb_spec x 0) as [->|Hx]; [reflexivity|].
  destruct (Z.eqb_spec (- x) 0); [lia|reflexivity].
Qed.

Lemma toArrayLike_le_opp x n : BN.toArrayLike_le (- x) n = BN.toArrayLike_le x n.
Proof. unfold BN.toArrayLike_le. rewrite byteLength_opp, Z.abs_opp. reflexivity. Qed.

Lemma u64ToLeBytes_opp num : u64ToLeBytes (- num) = u64ToLeBytes num.
Proof.
  unfold u64ToLeBytes, BN.of_number. rewrite Z.abs_opp.
  destruct (Z.abs num <? 0x20000000000000); [|reflexivity].
  cbn [bind]. apply toArrayLike_le_opp.
Qed.

Lemma of_Z_wraps z k : Bytes.of_Z (z + 256 * k) = Bytes.of_Z z.
Proof.
  unfold Bytes.of_Z. rewrite (Z.mul_comm 256 k), Z.mod_add by lia. reflexivity.
Qed.

(** A key of at most 32 bytes is recovered from its buffer. *)
Lemma toBuffer_value key :
  0 <= bn key < 2 ^ 256 -> Bytes.be_value (toBuffer key) = bn key.
Proof.
  intros Hk. unfold Bytes.be_value, toBuffer. rewrite rev_involutive.
  apply BytesFacts.le_value_bytes.
  change (256 ^ Z.of_nat PUBLIC_KEY_LENGTH) with (2 ^ 256). exact Hk.
Qed.

Lemma toBuffer_length key : length (toBuffer key) = 32%nat.
Proof.
  unfold toBuffer. rewrite length_rev. apply BytesFacts.le_bytes_length.
Qed.

End EncodingFacts.

Section EncodingProperties.
Context `{Crypto}.
Import Web3 Instructions Addressing.

(** X1 -- u64ToLeBytes round trip: for a number in [0, 2^53) the helper
    returns exactly eight bytes whose little-endian value is the number, so
    two such numbers with the same bytes are equal. *)
Theorem u64ToLeBytes_round_trip (n m : Z) :
  0 <= n < 2 ^ 53 -> 0 <= m < 2 ^ 53 ->
  (exists bs,
      u64ToLeBytes n = Ok bs /\ length bs = 8%nat /\ Bytes.le_value bs = n)
  /\ (u64ToLeBytes n = u64ToLeBytes m -> n = m).
Proof.
  intros Hn Hm.
  assert (2 ^ 53 < 2 ^ 64) as Hpow by (apply Z.pow_lt_mono_r; lia).
  assert (forall z, 0 <= z < 2 ^ 53 ->
                    u64ToLeBytes z = Ok (Bytes.le_bytes 8 z)
                    /\ Bytes.le_value (Bytes.le_bytes 8 z) = z) as Hrt.
  { intros z Hz. split.
    - rewrite InstructionFacts.u64ToLeBytes_ok by lia.
      rewrite Z.abs_eq by lia. reflexivity.
    - apply BytesFacts.le_value_bytes.
      change (256 ^ Z.of_nat 8) with (2 ^ 64). lia. }
  destruct (Hrt n Hn) as [Hbn Hvn]. destruct (Hrt m Hm) as [Hbm Hvm].
  split.
  - exists (Bytes.le_bytes 8 n).
    split; [exact Hbn|split; [apply BytesFacts.le_bytes_length|exact Hvn]].
  - rewrite Hbn, Hbm. intros Heq.
    assert (Bytes.le_bytes 8 n = Bytes.le_bytes 8 m) as Hbytes by congruence.
    apply (f_equal Bytes.le_value) in Hbytes. rewrite Hvn, Hvm in Hbytes.
    exact Hbytes.
Qed.

(** X2 -- The helper writes the magnitude only and refuses large numbers:
    u64ToLeBytes returns exactly when |num| < 2^53 (otherwise bn.js throws
    "Assertion failed"), a negative number gets the bytes of its absolute
    value, and so both builders return the same instruction for a nonce and
    for its negation. *)
Theorem u64ToLeBytes_drops_the_sign
    (sender recipient1 recipient2 : PublicKey) (p1 p2 amount num : Z) :
  (is_ok (u64ToLeBytes num) = true <-> Z.abs num < 2 ^ 53)
  /\ (2 ^ 53 <= Z.abs num -> u64ToLeBytes num = Err (Error "Assertion failed"))
  /\ u64ToLeBytes (- num) = u64ToLeBytes num
  /\ createInitializeSplitInstruction sender recipient1 recipient2 p1 p2 (- num)
     = createInitializeSplitInstruction sender recipient1 recipient2 p1 p2 num
  /\ createExecuteSplitInstruction sender recipient1 recipient2 amount (- num)
     = createExecuteSplitInstruction sender recipient1 recipient2 amount num.
Proof.
  split; [split|split; [|split; [|split]]].
  - intros Hok. destruct (u64ToLeBytes num) as [bs|e] eqn:Hb; [|discriminate].
    apply InstructionFacts.u64ToLeBytes_inv in Hb. tauto.
  - intros Hlt. rewrite InstructionFacts.u64ToLeBytes_ok by exact Hlt. reflexivity.
  - apply InstructionFacts.u64ToLeBytes_throws.
  - apply EncodingFacts.u64ToLeBytes_opp.
  - unfold createInitializeSplitInstruction.
    rewrite EncodingFacts.u64ToLeBytes_opp. reflexivity.
  - unfold createExecuteSplitInstruction.
    rewrite EncodingFacts.u64ToLeBytes_opp. reflexivity.
Qed.

(** X3 -- The bytes handed to the hash determine the owner and the nonce:
    for owners that are 32-byte keys and nonces in [0, 2^53), if the
    concatenated seeds (tag, owner, nonce bytes, bump) of two derivations are
    equal, then the owners, the nonces and the bump bytes are equal. *)
Theorem hashed_seeds_determine_owner_and_nonce
    (owner1 owner2 : PublicKey) (n1 n2 bump1 bump2 : Z) (b1 b2 : list byte) :
  0 <= bn owner1 < 2 ^ 256 -> 0 <= bn owner2 < 2 ^ 256 ->
  0 <= n1 -> 0 <= n2 ->
  u64ToLeBytes n1 = Ok b1 -> u64ToLeBytes n2 = Ok b2 ->
  concat (seedsOf owner1 b1 ++ [Buffer_from_array [bump1]])
  = concat (seedsOf owner2 b2 ++ [Buffer_from_array [bump2]]) ->
  owner1 = owner2 /\ n1 = n2 /\ Bytes.of_Z bump1 = Bytes.of_Z bump2.
Proof.
  intros Ho1 Ho2 Hn1 Hn2 Hb1 Hb2 Heq.
  apply InstructionFacts.u64ToLeBytes_inv in Hb1 as [-> Hlt1].
  apply InstructionFacts.u64ToLeBytes_inv in Hb2 as [-> Hlt2].
  rewrite (Z.abs_eq n1) in * by lia. rewrite (Z.abs_eq n2) in * by lia.
  unfold seedsOf in Heq. cbn [app concat Buffer_from_array map] in Heq.
  apply app_inv_head in Heq.
  apply app_inj_1 in Heq as [Hkey Hrest];
    [|rewrite !EncodingFacts.toBuffer_length; reflexivity].
  apply app_inj_1 in Hrest as [Hnonce Hbump];
    [|rewrite !BytesFacts.le_bytes_length; reflexivity].
  assert (2 ^ 53 < 2 ^ 64) as Hpow by (apply Z.pow_lt_mono_r; lia).
  split; [|split].
  - pose proof (EncodingFacts.toBuffer_value owner1 Ho1) as Hv1.
    pose proof (EncodingFacts.toBuffer_value owner2 Ho2) as Hv2.
    rewrite Hkey, Hv2 in Hv1.
    destruct owner1 as [k1], owner2 as [k2]. cbn [bn] in Hv1. congruence.
  - rewrite <- (BytesFacts.le_value_bytes 8 n1), <- (BytesFacts.le_value_bytes 8 n2);
      try (change (256 ^ Z.of_nat 8) with (2 ^ 64); lia).
    rewrite Hnonce. reflexivity.
  - inversion Hbump. reflexivity.
Qed.

(** X4 -- createInitializeSplitInstruction does not validate the shares: a
    share is sent as its value modulo 256 (300 goes out as 44), so adding a
    multiple of 256 to either share gives the same instruction, and whether
    the builder returns does not depend on the shares at all. *)
Theorem initialize_builder_wraps_shares
    (sender recipient1 recipient2 : PublicKey) (p1 p2 k1 k2 q1 q2 nonce : Z) :
  createInitializeSplitInstruction sender recipient1 recipient2
    (p1 + 256 * k1) (p2 + 256 * k2) nonce
  = createInitializeSplitInstruction sender recipient1 recipient2 p1 p2 nonce
  /\ is_ok (createInitializeSplitInstruction sender recipient1 recipient2 q1 q2 nonce)
     = is_ok (createInitializeSplitInstruction sender recipient1 recipient2 p1 p2 nonce).
Proof.
  split.
  - unfold createInitializeSplitInstruction, Buffer_from_array. cbn [map].
    rewrite !EncodingFacts.of_Z_wraps. reflexivity.
  - unfold createInitializeSplitInstruction.
    destruct (PublicKey_of_string Config.PROGRAM_ID_STRING); cbn [bind]; [|reflexivity].
    destruct (u64ToLeBytes nonce); cbn [bind]; [|reflexivity].
    destruct (findProgramAddressSync _ _) as [[pda bump]|e]; reflexivity.
Qed.

(** X5 -- createExecuteSplitInstruction never truncates the amount: when
    the nonce is encodable and the address derivation finds a bump, an amount
    of 2^64 or more makes the builder throw "byte array longer than desired
    length" instead of returning an instruction. *)
Theorem execute_builder_rejects_wide_amount
    (sender recipient1 recipient2 pda : PublicKey) (amount nonce bump : Z) :
  Z.abs nonce < 2 ^ 53 ->
  findProgramAddressSync (seedsOf sender (Bytes.le_bytes 8 (Z.abs nonce))) PROGRAM_ID
    = Ok (pda, bump) ->
  2 ^ 64 <= Z.abs amount ->
  createExecuteSplitInstruction sender recipient1 recipient2 amount nonce
  = Err (Error "byte array longer than desired length").
Proof.
  intros Hn Hpda Hamt. unfold createExecuteSplitInstruction.
  rewrite InstructionFacts.programId_ok. cbn [bind].
  rewrite InstructionFacts.u64ToLeBytes_ok by exact Hn. cbn [bind].
  change (findProgramAddressSync (seedsOf sender (Bytes.le_bytes 8 (Z.abs nonce))) PROGRAM_ID
          = Ok (pda, bump)) in Hpda.
  unfold seedsOf, TAG in Hpda. unfold Buffer_from_string. rewrite Hpda. cbn [bind].
  unfold BN.toArrayLike_le.
  destruct (Z.leb_spec (BN.byteLength amount) (Z.of_nat 8)) as [Hle|_]; [|reflexivity].
  apply BNFacts.byteLength_le in Hle; [|lia].
  change (2 ^ (8 * Z.of_nat 8)) with (2 ^ 64) in Hle. lia.
Qed.

End EncodingProperties.

(** ** components/SplitInterface.tsx beyond the two claims *)

Module InterfaceFacts.
Import Web3 Instructions SplitInterface.

(** The nonce an Initialize instruction carries: bytes 10 to 17 of its
    data, read as a little-endian integer. *)
Definition carriedNonce (ix : TransactionInstruction) : Z :=
  Bytes.le_value (drop 10 (data ix)).

(** The nonce counter bounds the nonces already sent, strictly those of
    confirmed Initializes; after a rejected Initialize the counter still
    holds its nonce and the interface is still in step [config]. *)
Definition counterInv (s : State) (log : list Submission) : Prop :=
  0 <= nonce s
  /\ (forall i ix c,
        log !! i = Some (SubmitInitialize ix c) ->
        carriedNonce ix <= nonce s /\ (c = true -> carriedNonce ix < nonce s))
  /\ (forall ix,
        lastInitialize log = Some (ix, false) ->
        carriedNonce ix = nonce s /\ step s = config).

(** Along the log the nonces of the Initializes never decrease, increase
    after a confirmed one, and repeat after a rejected one. *)
Definition orderedLog (log : list Submission) : Prop :=
  forall j ixj cj,
    log !! j = Some (SubmitInitialize ixj cj) ->
    (forall i ixi ci,
        (i < j)%nat -> log !! i = Some (SubmitInitialize ixi ci) ->
        carriedNonce ixi <= carriedNonce ixj
        /\ (ci = true -> carriedNonce ixi < carriedNonce ixj))
    /\ (forall ixp,
          lastInitialize (take j log) = Some (ixp, false) ->
          carriedNonce ixj = carriedNonce ixp).

Section WithCrypto.
Context `{Crypto}.

Lemma built_carriedNonce ix w p1 p2 n :
  builtInitialize ix w p1 p2 n -> 0 <= n -> carriedNonce ix = n.
Proof.
  intros (r1 & r2 & Hix) Hn.
  apply InstructionFacts.createInitialize_inv in Hix as (pda & bump & Hlt & _ & ->).
  unfold carriedNonce.
  change (drop 10 (data _)) with (Bytes.le_bytes 8 (Z.abs n)).
  rewrite Z.abs_eq in * by exact Hn.
  apply BytesFacts.le_value_bytes.
  change (256 ^ Z.of_nat 8) with (2 ^ 64).
  assert (2 ^ 53 < 2 ^ 64) by (apply Z.pow_lt_mono_r; lia). lia.
Qed.

(** What one event can do to the log, the step and the nonce counter. *)
Lemma handle_outcome env ev s s' out :
  handle env ev s = (s', out) ->
  (out = [] /\ nonce s' = nonce s /\ step s' = step s)
  \/ (out = [] /\ step s = execute /\ nonce s' = nonce s + 1 /\ step s' = config)
  \/ (exists ix w p1 p2,
        out = [SubmitInitialize ix false] /\ step s = config /\ step s' = config
        /\ nonce s' = nonce s /\ builtInitialize ix w p1 p2 (nonce s))
  \/ (exists ix w p1 p2,
        out = [SubmitInitialize ix true] /\ step s = config /\ step s' = execute
        /\ nonce s' = nonce s + 1 /\ builtInitialize ix w p1 p2 (nonce s))
  \/ (exists ix c,
        out = [SubmitExecute ix c] /\ step s = execute
        /\ nonce s' = nonce s /\ step s' = step s).
Proof.
  intros Hh. destruct ev; cbn [handle] in Hh.
  - inversion Hh; subst. left. auto.
  - inversion Hh; subst. left. auto.
  - inversion Hh; subst. left. auto.
  - inversion Hh; subst. left. auto.
  - destruct (step s) eqn:Hstep; [|inversion Hh; subst; left; auto].
    destruct (initializeDisabled env s); [inversion Hh; subst; left; auto|].
    apply SessionFacts.initializeSplit_cases in Hh
      as (_ & _ & [(-> & Hs & Hn)|[(ix & w & -> & Hs & Hn & Hb)
                                   |(ix & w & -> & Hs & _ & Hn & _ & Hb)]]).
    + left. rewrite Hs. auto.
    + right; right; left. exists ix, w, (percentage1 s), (percentage2 s).
      rewrite Hs. auto 10.
    + right; right; right; left.
      exists ix, w, (percentage1 s), (percentage2 s). auto 10.
  - destruct (step s) eqn:Hstep; [inversion Hh; subst; left; auto|].
    destruct (executeDisabled env s); [inversion Hh; subst; left; auto|].
    apply SessionFacts.executeSplit_cases in Hh
      as (_ & _ & Hs & Hn & _ & [->|(ix & w & c & -> & _ & _)]).
    + left. rewrite Hs. auto.
    + right; right; right; right. exists ix, c. rewrite Hs. auto.
  - destruct (step s) eqn:Hstep; [inversion Hh; subst; left; auto|].
    destruct (startNewSplitDisabled s); [inversion Hh; subst; left; auto|].
    inversion Hh; subst. right; left. SessionFacts.state_simpl. auto.
Qed.

Lemma orderedLog_nil : orderedLog [].
Proof. intros j ixj cj Hj. destruct j; discriminate. Qed.

Lemma orderedLog_execute log ix c :
  orderedLog log -> orderedLog (log ++ [SubmitExecute ix c]).
Proof.
  intros Hlog j ixj cj Hj.
  apply lookup_snoc_Some in Hj as [[Hlt Hj]|[_ Hj]]; [|discriminate].
  destruct (Hlog _ _ _ Hj) as [Hbefore Hretry]. split.
  - intros i ixi ci Hij Hi. rewrite lookup_app_l in Hi by lia. eauto.
  - rewrite take_app_le by lia. exact Hretry.
Qed.

Lemma orderedLog_initialize s log ix c :
  counterInv s log -> orderedLog log -> carriedNonce ix = nonce s ->
  orderedLog (log ++ [SubmitInitialize ix c]).
Proof.
  intros (_ & Hbound & Hlast) Hlog Hcarried j ixj cj Hj.
  apply lookup_snoc_Some in Hj as [[Hlt Hj]|[-> Hj]].
  - destruct (Hlog _ _ _ Hj) as [Hbefore Hretry]. split.
    + intros i ixi ci Hij Hi. rewrite lookup_app_l in Hi by lia. eauto.
    + rewrite take_app_le by lia. exact Hretry.
  - inversion Hj; subst ixj cj. split.
    + intros i ixi ci Hij Hi. rewrite lookup_app_l in Hi by lia.
      rewrite Hcarried. eauto.
    + rewrite take_app_length. intros ixp Hp.
      rewrite Hcarried. symmetry. exact (proj1 (Hlast _ Hp)).
Qed.

(** One event keeps the counter invariant and the order of the log. *)
Lemma handle_counter env ev s log s' out :
  handle env ev s = (s', out) ->
  counterInv s log -> orderedLog log ->
  counterInv s' (log ++ out) /\ orderedLog (log ++ out).
Proof.
  intros Hh Hinv Hlog. pose proof Hinv as (Hpos & Hbound & Hlast).
  apply handle_outcome in Hh
    as [(-> & Hn & Hs)
       |[(-> & Hstep & Hn & Hs)
        |[(ix & w & p1 & p2 & -> & Hstep & Hs & Hn & Hb)
         |[(ix & w & p1 & p2 & -> & Hstep & Hs & Hn & Hb)
          |(ix & c & -> & Hstep & Hn & Hs)]]]].
  - rewrite app_nil_r. split; [|exact Hlog].
    unfold counterInv. rewrite Hn, Hs. auto.
  - rewrite app_nil_r. split; [|exact Hlog].
    unfold counterInv. rewrite Hn, Hs. split; [lia|split].
    + intros i ix c Hi. destruct (Hbound _ _ _ Hi) as [Hle Hc]. split; [lia|].
      intros _. lia.
    + intros ix Hix. destruct (Hlast _ Hix) as [_ Hconfig].
      rewrite Hstep in Hconfig. discriminate.
  - pose proof (built_carriedNonce _ _ _ _ _ Hb Hpos) as Hcarried.
    split; [|exact (orderedLog_initialize _ _ _ _ Hinv Hlog Hcarried)].
    unfold counterInv. rewrite Hn, Hs. split; [exact Hpos|split].
    + intros i ix0 c Hi.
      apply lookup_snoc_Some in Hi as [[_ Hi]|[_ Hi]]; [eauto|].
      inversion Hi; subst ix0 c. split; [lia|discriminate].
    + intros ix0. rewrite SessionFacts.lastInitialize_app. cbn [lastInitialize].
      intros Hix. inversion Hix; subst ix0. auto.
  - pose proof (built_carriedNonce _ _ _ _ _ Hb Hpos) as Hcarried.
    split; [|exact (orderedLog_initialize _ _ _ _ Hinv Hlog Hcarried)].
    unfold counterInv. rewrite Hn. split; [lia|split].
    + intros i ix0 c Hi.
      apply lookup_snoc_Some in Hi as [[_ Hi]|[_ Hi]].
      * destruct (Hbound _ _ _ Hi) as [Hle _]. split; [lia|intros _; lia].
      * inversion Hi; subst ix0 c. split; [lia|intros _; lia].
    + intros ix0. rewrite SessionFacts.lastInitialize_app. cbn [lastInitialize].
      discriminate.
  - split; [|exact (orderedLog_execute _ _ _ Hlog)].
    unfold counterInv. rewrite Hn, Hs. split; [exact Hpos|split].
    + intros i ix0 c0 Hi.
      apply lookup_snoc_Some in Hi as [[_ Hi]|[_ Hi]]; [eauto|discriminate].
    + intros ix0. rewrite SessionFacts.lastInitialize_app. cbn [lastInitialize].
      destruct (lastInitialize log) as [found|] eqn:Hfound; [|discriminate].
      intros Hix. inversion Hix; subst found. exact (Hlast _ eq_refl).
Qed.

Lemma run_counter events : forall s log s' out,
  run events s = (s', out) ->
  counterInv s log -> orderedLog log ->
  counterInv s' (log ++ out) /\ orderedLog (log ++ out).
Proof.
  induction events as [|[env ev] rest IH]; intros s log s' out Hrun Hinv Hlog.
  - inversion Hrun; subst. rewrite app_nil_r. auto.
  - cbn [run] in Hrun.
    destruct (handle env ev s) as [s1 out1] eqn:Hh.
    destruct (run rest s1) as [s2 out2] eqn:Hr.
    inversion Hrun; subst.
    destruct (handle_counter _ _ _ _ _ _ Hh Hinv Hlog) as (Hinv1 & Hlog1).
    rewrite app_assoc. exact (IH _ _ _ _ Hr Hinv1 Hlog1).
Qed.

End WithCrypto.
End InterfaceFacts.

Module HandlerFacts.
Import Web3 Instructions SplitInterface.

Section WithCrypto.
Context `{Crypto}.

Lemma initializeSplit_loading env s :
  loading (initializeSplit env s).1 = false
  \/ (initializeSplit env s = (setStatus StatusConnectWallet s, [])
      /\ (publicKey (wallet env) = None \/ sendTransaction (wallet env) = false)).
Proof.
  unfold initializeSplit. cbv zeta.
  destruct (publicKey (wallet env)) as [w|]; [|right; auto].
  destruct (sendTransaction (wallet env)); [|right; auto].
  left. SessionFacts.state_simpl.
  destruct (PublicKey_of_string (trim (recipient1 s))); cbn [bind]; [|reflexivity].
  destruct (PublicKey_of_string (trim (recipient2 s))); cbn [bind]; [|reflexivity].
  destruct (createInitializeSplitInstruction _ _ _ _ _ _) as [ix|]; [|reflexivity].
  destruct (network env ix); [destruct (signTransaction (wallet env))|]; reflexivity.
Qed.

Lemma executeSplit_loading env s :
  loading (executeSplit env s).1 = false
  \/ (executeSplit env s = (setStatus StatusConnectWallet s, [])
      /\ (publicKey (wallet env) = None \/ signTransaction (wallet env) = false)).
Proof.
  unfold executeSplit. cbv zeta.
  destruct (publicKey (wallet env)) as [w|]; [|right; auto].
  destruct (signTransaction (wallet env)); [|right; auto].
  left. SessionFacts.state_simpl.
  destruct (PublicKey_of_string (trim (recipient1 s))); cbn [bind]; [|reflexivity].
  destruct (PublicKey_of_string (trim (recipient2 s))); cbn [bind]; [|reflexivity].
  destruct (amountLamports env (amount s)); cbn [bind]; [|reflexivity].
  destruct (createExecuteSplitInstruction _ _ _ _ _) as [ix|]; [|reflexivity].
  destruct (network env ix); reflexivity.
Qed.

Lemma handle_loading env ev s :
  loading s = false -> loading (handle env ev s).1 = false.
Proof.
  intros Hl. destruct ev; cbn [handle]; try exact Hl.
  - destruct (step s); [|exact Hl].
    destruct (initializeDisabled env s); [exact Hl|].
    destruct (initializeSplit_loading env s) as [Hdone|[-> _]]; [exact Hdone|exact Hl].
  - destruct (step s); [exact Hl|].
    destruct (executeDisabled env s); [exact Hl|].
    destruct (executeSplit_loading env s) as [Hdone|[-> _]]; [exact Hdone|exact Hl].
  - destruct (step s); [exact Hl|].
    destruct (startNewSplitDisabled s); [exact Hl|]. exact Hl.
Qed.

(** What [executeSplit] reads of the form. *)
Definition sameForm (s1 s2 : State) : Prop :=
  recipient1 s1 = recipient1 s2 /\ recipient2 s1 = recipient2 s2
  /\ amount s1 = amount s2 /\ activeNonce s1 = activeNonce s2.

Lemma executeSplit_sameForm env s1 s2 :
  sameForm s1 s2 -> (executeSplit env s1).2 = (executeSplit env s2).2.
Proof.
  intros (Hr1 & Hr2 & Ha & Hn). unfold executeSplit. cbv zeta.
  destruct (publicKey (wallet env)) as [w|]; [|reflexivity].
  destruct (signTransaction (wallet env)); [|reflexivity].
  SessionFacts.state_simpl. rewrite Hr1, Hr2, Ha, Hn.
  destruct (PublicKey_of_string (trim (recipient1 s2))); cbn [bind]; [|reflexivity].
  destruct (PublicKey_of_string (trim (recipient2 s2))); cbn [bind]; [|reflexivity].
  destruct (amountLamports env (amount s2)); cbn [bind]; [|reflexivity].
  destruct (createExecuteSplitInstruction _ _ _ _ _) as [ix|]; [|reflexivity].
  destruct (network env ix); reflexivity.
Qed.

Lemma executeSplit_keeps_form env s : sameForm (executeSplit env s).1 s.
Proof.
  unfold executeSplit, sameForm. cbv zeta.
  destruct (publicKey (wallet env)) as [w|]; [|cbn; auto].
  destruct (signTransaction (wallet env)); [|cbn; auto].
  SessionFacts.state_simpl.
  destruct (PublicKey_of_string (trim (recipient1 s))); cbn [bind]; [|cbn; auto].
  destruct (PublicKey_of_string (trim (recipient2 s))); cbn [bind]; [|cbn; auto].
  destruct (amountLamports env (amount s)); cbn [bind]; [|cbn; auto].
  destruct (createExecuteSplitInstruction _ _ _ _ _) as [ix|]; [|cbn; auto].
  destruct (network env ix); cbn; auto.
Qed.

End WithCrypto.
End HandlerFacts.

(** ** The handlers between their awaits

    [initializeSplit] and [executeSplit] are async functions: the click runs
    the handler up to its first [await], and the rest runs when the awaited
    calls settle, which may be never.  In between the component handles
    other events.  [Live] keeps, beside the cells, the handlers that are
    suspended, each with what its closure captured. *)

Module InFlight.
Import Web3 Instructions SplitInterface.

Inductive Handler : Type := InitializeHandler | ExecuteHandler.

(** The status texts shown while a handler runs: "Initializing split
    configuration...", "Executing payment split..." and "Transaction sent!
    Waiting for confirmation...". *)
Inductive Progress : Type := Initializing | Executing | TransactionSent.

(** A handler suspended at an [await]: the instruction it built before
    its first [await], and the [nonce] and [wallet.signTransaction] of the
    render whose button was clicked. *)
Record Suspended : Type := {
  handler : Handler;
  instruction : TransactionInstruction;
  currentNonce : Z;
  canSign : bool
}.

(** The cells and the suspended handlers.  While [progress] is [Some text]
    the status cell holds that text; otherwise it holds [status cells]. *)
Record Live : Type := {
  cells : State;
  progress : option Progress;
  suspended : list Suspended
}.

Definition idle (s : State) : Live :=
  {| cells := s; progress := None; suspended := [] |}.

Definition mounted (randomNonce : Z) : Live := idle (initialState randomNonce).

(** Cells written with a final status text. *)
Definition withStatus (s : State) (l : Live) : Live :=
  {| cells := s; progress := None; suspended := suspended l |}.

(** Cells written without touching the status. *)
Definition withCells (s : State) (l : Live) : Live :=
  {| cells := s; progress := progress l; suspended := suspended l |}.

Inductive LiveEvent : Type :=
| Rendered (ev : Event)
  (** an event of the rendered component *)
| Sent (i : nat)
  (** the i-th suspended handler has passed [sendRawTransaction] *)
| Settled (i : nat).
  (** the awaits of the i-th suspended handler have all settled, by the
      cluster's answer or by a rejection *)

Section Handlers.
Context `{Crypto}.

(** [initializeSplit] up to [await connection.getLatestBlockhash]. *)
Definition initializeSplit_begin (env : Env) (l : Live) : Live :=
  let s := cells l in
  match publicKey (wallet env), sendTransaction (wallet env) with
  | Some walletKey, true =>
      let s := setLoading true s in
      let nonce0 := nonce s in
      let s := setActiveNonce nonce0 s in
      let built :=
        let* recipient1Pubkey := PublicKey_of_string (trim (recipient1 s)) in
        let* recipient2Pubkey := PublicKey_of_string (trim (recipient2 s)) in
        createInitializeSplitInstruction walletKey recipient1Pubkey recipient2Pubkey
          (percentage1 s) (percentage2 s) nonce0 in
      match built with
      | Err e => withStatus (setLoading false (setStatus (StatusError e) s)) l
      | Ok ix =>
          {| cells := s;
             progress := Some Initializing;
             suspended :=
               suspended l
               ++ [ {| handler := InitializeHandler; instruction := ix;
                       currentNonce := nonce0;
                       canSign := signTransaction (wallet env) |} ] |}
      end
  | _, _ => withStatus (setStatus StatusConnectWallet s) l
  end.

(** [executeSplit] up to [await connection.getLatestBlockhash]. *)
Definition executeSplit_begin (env : Env) (l : Live) : Live :=
  let s := cells l in
  match publicKey (wallet env), signTransaction (wallet env) with
  | Some walletKey, true =>
      let s := setLoading true s in
      let built :=
        let* recipient1Pubkey := PublicKey_of_string (trim (recipient1 s)) in
        let* recipient2Pubkey := PublicKey_of_string (trim (recipient2 s)) in
        let* lamports := amountLamports env (amount s) in
        createExecuteSplitInstruction walletKey recipient1Pubkey recipient2Pubkey
          lamports (activeNonce s) in
      match built with
      | Err e => withStatus (setLoading false (setStatus (StatusError e) s)) l
      | Ok ix =>
          {| cells := s;
             progress := Some Executing;
             suspended :=
               suspended l
               ++ [ {| handler := ExecuteHandler; instruction := ix;
                       currentNonce := nonce s;
                       canSign := signTransaction (wallet env) |} ] |}
      end
  | _, _ => withStatus (setStatus StatusConnectWallet s) l
  end.

(** The rest of a handler once its awaits have settled: the success path,
    or [catch], and then [finally].  It writes the cells of the moment it
    runs, with the values its closure captured. *)
Definition resume (env : Env) (p : Suspended) (s : State) : State * list Submission :=
  match handler p with
  | InitializeHandler =>
      match network env (instruction p), canSign p with
      | Confirmed tx, true =>
          let s := setTxSignature tx s in
          let s := setStatus StatusInitialized s in
          let s := setStep execute s in
          let s := setNonce (currentNonce p + 1) s in
          (setLoading false s, [SubmitInitialize (instruction p) true])
      | Confirmed _, false =>
          (setLoading false
             (setStatus (StatusError (Error "Wallet does not support signing transactions")) s),
           [SubmitInitialize (instruction p) false])
      | Rejected e, _ =>
          (setLoading false (setStatus (StatusError e) s),
           [SubmitInitialize (instruction p) false])
      end
  | ExecuteHandler =>
      match network env (instruction p) with
      | Confirmed tx =>
          let s := setTxSignature tx s in
          let s := setStatus StatusExecuted s in
          (setLoading false s, [SubmitExecute (instruction p) true])
      | Rejected e =>
          (setLoading false (setStatus (StatusError e) s),
           [SubmitExecute (instruction p) false])
      end
  end.

(** One event of the live component.  A click runs its handler up to the
    first await; [Sent] is reached only by a handler whose wallet can sign
    (initializeSplit throws before it otherwise); [Settled] runs the rest of
    the handler with the answer of the cluster.  A submission is logged when
    its handler settles. *)
Definition handleLive (env : Env) (ev : LiveEvent) (l : Live) : Live * list Submission :=
  match ev with
  | Rendered (ChangeRecipient1 text) => (withCells (setRecipient1 (trim text) (cells l)) l, [])
  | Rendered (ChangeRecipient2 text) => (withCells (setRecipient2 (trim text) (cells l)) l, [])
  | Rendered (ChangeSlider position) =>
      let val := rangeValue 1 99 position in
      (withCells (setPercentage2 (100 - val) (setPercentage1 val (cells l))) l, [])
  | Rendered (ChangeAmount text) => (withCells (setAmount text (cells l)) l, [])
  | Rendered ClickInitialize =>
      match step (cells l) with
      | config =>
          if initializeDisabled env (cells l) then (l, [])
          else (initializeSplit_begin env l, [])
      | execute => (l, [])
      end
  | Rendered ClickExecute =>
      match step (cells l) with
      | execute =>
          if executeDisabled env (cells l) then (l, [])
          else (executeSplit_begin env l, [])
      | config => (l, [])
      end
  | Rendered ClickStartNewSplit =>
      match step (cells l) with
      | execute =>
          if startNewSplitDisabled (cells l) then (l, [])
          else (withStatus (resetForm (cells l)) l, [])
      | config => (l, [])
      end
  | Sent i =>
      match suspended l !! i with
      | Some p =>
          if canSign p
          then ({| cells := cells l; progress := Some TransactionSent;
                   suspended := suspended l |}, [])
          else (l, [])
      | None => (l, [])
      end
  | Settled i =>
      match suspended l !! i with
      | Some p =>
          let '(s, out) := resume env p (cells l) in
          ({| cells := s; progress := None; suspended := delete i (suspended l) |}, out)
      | None => (l, [])
      end
  end.

Fixpoint runLive (events : list (Env * LiveEvent)) (l : Live) : Live * list Submission :=
  match events with
  | [] => (l, [])
  | (env, ev) :: rest =>
      let '(l1, out1) := handleLive env ev l in
      let '(l2, out2) := runLive rest l1 in
      (l2, out1 ++ out2)
  end.

End Handlers.

(** A session in which every handler settles before the next event. *)
Definition settledAtOnce (events : list (Env * Event)) : list (Env * LiveEvent) :=
  flat_map (fun e => [(e.1, Rendered e.2); (e.1, Settled 0)]) events.

(** The buttons. *)
Definition isClick (ev : Event) : bool :=
  match ev with
  | ClickInitialize | ClickExecute | ClickStartNewSplit => true
  | _ => false
  end.

(** [loading] is set exactly while one handler is suspended. *)
Definition oneInFlight (l : Live) : Prop :=
  (loading (cells l) = true /\ exists p, suspended l = [p])
  \/ (loading (cells l) = false /\ suspended l = []).

End InFlight.

Module InFlightFacts.
Import Web3 Instructions SplitInterface InFlight.

Section WithCrypto.
Context `{Crypto}.

Lemma resume_loading env p s : loading (resume env p s).1 = false.
Proof.
  unfold resume.
  destruct (handler p); destruct (network env (instruction p));
    try destruct (canSign p); reflexivity.
Qed.

Lemma initializeSplit_begin_idle env s :
  loading s = false ->
  oneInFlight (initializeSplit_begin env (idle s)).
Proof.
  intros Hl. unfold initializeSplit_begin, oneInFlight. cbv zeta.
  cbn [cells idle suspended].
  destruct (publicKey (wallet env)) as [w|]; [|right; split; [exact Hl|reflexivity]].
  destruct (sendTransaction (wallet env)); [|right; split; [exact Hl|reflexivity]].
  SessionFacts.state_simpl.
  destruct (PublicKey_of_string (trim (recipient1 s))); cbn [bind];
    [|right; split; reflexivity].
  destruct (PublicKey_of_string (trim (recipient2 s))); cbn [bind];
    [|right; split; reflexivity].
  destruct (createInitializeSplitInstruction _ _ _ _ _ _) as [ix|];
    [|right; split; reflexivity].
  left. split; [reflexivity|]. eexists. reflexivity.
Qed.

Lemma executeSplit_begin_idle env s :
  loading s = false ->
  oneInFlight (executeSplit_begin env (idle s)).
Proof.
  intros Hl. unfold executeSplit_begin, oneInFlight. cbv zeta.
  cbn [cells idle suspended].
  destruct (publicKey (wallet env)) as [w|]; [|right; split; [exact Hl|reflexivity]].
  destruct (signTransaction (wallet env)); [|right; split; [exact Hl|reflexivity]].
  SessionFacts.state_simpl.
  destruct (PublicKey_of_string (trim (recipient1 s))); cbn [bind];
    [|right; split; reflexivity].
  destruct (PublicKey_of_string (trim (recipient2 s))); cbn [bind];
    [|right; split; reflexivity].
  destruct (amountLamports env (amount s)); cbn [bind]; [|right; split; reflexivity].
  destruct (createExecuteSplitInstruction _ _ _ _ _) as [ix|];
    [|right; split; reflexivity].
  left. split; [reflexivity|]. eexists. reflexivity.
Qed.

(** While a handler is suspended the three buttons do nothing. *)
Lemma click_while_loading env ev l :
  loading (cells l) = true -> isClick ev = true ->
  handleLive env (Rendered ev) l = (l, []).
Proof.
  intros Hl Hclick. destruct ev; try discriminate; cbn [handleLive];
    destruct (step (cells l)); try reflexivity.
  - unfold initializeDisabled. rewrite Hl. reflexivity.
  - unfold executeDisabled. rewrite Hl. reflexivity.
  - unfold startNewSplitDisabled. rewrite Hl. reflexivity.
Qed.

(** Settling the suspended handler ends the loading state. *)
Lemma settle_in_flight env i p l :
  oneInFlight l -> suspended l !! i = Some p ->
  loading (cells (handleLive env (Settled i) l).1) = false
  /\ suspended (handleLive env (Settled i) l).1 = [].
Proof.
  intros [[_ [q Hq]]|[_ Hnone]] Hp.
  - rewrite Hq in Hp. destruct i as [|i]; [|discriminate].
    cbn [handleLive]. rewrite Hq. cbn [lookup list_lookup].
    pose proof (resume_loading env q (cells l)) as Hdone.
    destruct (resume env q (cells l)) as [s out].
    cbn [fst cells suspended] in *. split; [exact Hdone|reflexivity].
  - rewrite Hnone in Hp. discriminate.
Qed.

Lemma handleLive_oneInFlight env ev l :
  oneInFlight l -> oneInFlight (handleLive env ev l).1.
Proof.
  intros Hinv. destruct ev as [ev|i|i].
  - destruct (loading (cells l)) eqn:Hl.
    + destruct (isClick ev) eqn:Hclick.
      * rewrite (click_while_loading _ _ _ Hl Hclick). exact Hinv.
      * destruct ev; try discriminate; exact Hinv.
    + assert (l = {| cells := cells l; progress := progress l; suspended := [] |})
        as Hshape.
      { destruct Hinv as [[Htrue _]|[_ Hnone]]; [congruence|].
        destruct l; cbn in *; congruence. }
      destruct ev; cbn [handleLive fst]; try (rewrite Hshape; right; split; [exact Hl|reflexivity]).
      * destruct (step (cells l)); [|exact Hinv].
        destruct (initializeDisabled env (cells l)); [exact Hinv|]. cbn [fst].
        pose proof (initializeSplit_begin_idle env (cells l) Hl) as Hbegin.
        rewrite Hshape. exact Hbegin.
      * destruct (step (cells l)); [exact Hinv|].
        destruct (executeDisabled env (cells l)); [exact Hinv|]. cbn [fst].
        pose proof (executeSplit_begin_idle env (cells l) Hl) as Hbegin.
        rewrite Hshape. exact Hbegin.
      * destruct (step (cells l)) eqn:Hstep; [exact Hinv|].
        destruct (startNewSplitDisabled (cells l)); [exact Hinv|]. cbn [fst].
        right. split; [exact Hl|]. rewrite Hshape. reflexivity.
  - cbn [handleLive]. destruct (suspended l !! i) as [p|]; [|exact Hinv].
    destruct (canSign p); exact Hinv.
  - destruct (suspended l !! i) as [p|] eqn:Hp.
    + destruct (settle_in_flight env i p l Hinv Hp) as [Hdone Hnone].
      right. split; assumption.
    + cbn [handleLive]. rewrite Hp. exact Hinv.
Qed.

Lemma runLive_oneInFlight events : forall l,
  oneInFlight l -> oneInFlight (runLive events l).1.
Proof.
  induction events as [|[env ev] rest IH]; intros l Hinv; [exact Hinv|].
  cbn [runLive].
  pose proof (handleLive_oneInFlight env ev l Hinv) as Hinv1.
  destruct (handleLive env ev l) as [l1 out1]. cbn [fst] in Hinv1.
  specialize (IH l1 Hinv1). destruct (runLive rest l1) as [l2 out2]. exact IH.
Qed.

Lemma runLive_two env a b l :
  runLive [(env, a); (env, b)] l
  = let '(l1, out1) := handleLive env a l in
    let '(l2, out2) := handleLive env b l1 in
    (l2, out1 ++ out2).
Proof.
  cbn [runLive]. destruct (handleLive env a l) as [l1 out1].
  destruct (handleLive env b l1) as [l2 out2]. rewrite app_nil_r. reflexivity.
Qed.

(** A handler that settles at once is the handler of [run]. *)
Lemma initializeSplit_settled env s :
  handleLive env (Settled 0%nat) (initializeSplit_begin env (idle s))
  = (idle (initializeSplit env s).1, (initializeSplit env s).2).
Proof.
  unfold initializeSplit_begin, initializeSplit. cbv zeta.
  cbn [cells idle suspended].
  destruct (publicKey (wallet env)) as [w|]; [|reflexivity].
  destruct (sendTransaction (wallet env)); [|reflexivity].
  SessionFacts.state_simpl.
  destruct (PublicKey_of_string (trim (recipient1 s))); cbn [bind]; [|reflexivity].
  destruct (PublicKey_of_string (trim (recipient2 s))); cbn [bind]; [|reflexivity].
  destruct (createInitializeSplitInstruction _ _ _ _ _ _) as [ix|]; [|reflexivity].
  unfold handleLive, resume. cbn.
  destruct (network env ix); [destruct (signTransaction (wallet env))|];
    reflexivity.
Qed.

Lemma executeSplit_settled env s :
  handleLive env (Settled 0%nat) (executeSplit_begin env (idle s))
  = (idle (executeSplit env s).1, (executeSplit env s).2).
Proof.
  unfold executeSplit_begin, executeSplit. cbv zeta.
  cbn [cells idle suspended].
  destruct (publicKey (wallet env)) as [w|]; [|reflexivity].
  destruct (signTransaction (wallet env)); [|reflexivity].
  SessionFacts.state_simpl.
  destruct (PublicKey_of_string (trim (recipient1 s))); cbn [bind]; [|reflexivity].
  destruct (PublicKey_of_string (trim (recipient2 s))); cbn [bind]; [|reflexivity].
  destruct (amountLamports env (amount s)); cbn [bind]; [|reflexivity].
  destruct (createExecuteSplitInstruction _ _ _ _ _) as [ix|]; [|reflexivity].
  unfold handleLive, resume. cbn.
  destruct (network env ix); reflexivity.
Qed.

(** An event whose handler settles at once is the event of [handle]. *)
Lemma settled_event env ev s :
  runLive [(env, Rendered ev); (env, Settled 0%nat)] (idle s)
  = (idle (handle env ev s).1, (handle env ev s).2).
Proof.
  rewrite runLive_two.
  destruct ev; try reflexivity;
    remember (handleLive env (Settled 0%nat)) as settle eqn:Hsettle;
    cbn [handleLive handle]; change (cells (idle s)) with s.
  - destruct (step s); [|subst settle; reflexivity].
    destruct (initializeDisabled env s); [subst settle; reflexivity|].
    subst settle. rewrite initializeSplit_settled. reflexivity.
  - destruct (step s); [subst settle; reflexivity|].
    destruct (executeDisabled env s); [subst settle; reflexivity|].
    subst settle. rewrite executeSplit_settled. reflexivity.
  - subst settle. destruct (step s); [reflexivity|].
    destruct (startNewSplitDisabled s); reflexivity.
Qed.

Lemma runLive_app events1 : forall events2 l,
  runLive (events1 ++ events2) l
  = let '(l1, out1) := runLive events1 l in
    let '(l2, out2) := runLive events2 l1 in
    (l2, out1 ++ out2).
Proof.
  induction events1 as [|[env ev] rest IH]; intros events2 l.
  - cbn [app runLive]. destruct (runLive events2 l). reflexivity.
  - cbn [app runLive]. destruct (handleLive env ev l) as [l1 out1].
    rewrite IH. destruct (runLive rest l1) as [l2 out2].
    destruct (runLive events2 l2) as [l3 out3]. rewrite app_assoc. reflexivity.
Qed.

(** A session whose handlers all settle at once is the session of [run]. *)
Lemma settled_session events : forall s,
  loading s = false ->
  runLive (settledAtOnce events) (idle s) = (idle (run events s).1, (run events s).2).
Proof.
  induction events as [|[env ev] rest IH]; intros s Hl; [reflexivity|].
  unfold settledAtOnce. cbn [flat_map fst snd]. fold (settledAtOnce rest).
  rewrite runLive_app, (settled_event env ev s).
  pose proof (HandlerFacts.handle_loading env ev s Hl) as Hl1.
  cbn [run]. destruct (handle env ev s) as [s1 out1]. cbn [fst snd] in *.
  rewrite (IH s1 Hl1). destruct (run rest s1) as [s2 out2]. reflexivity.
Qed.

End WithCrypto.
End InFlightFacts.

Section InterfaceProperties.
Context `{Crypto}.
Import Web3 Instructions SplitInterface InterfaceFacts InFlight.

(** X6 -- The nonces of the Initialize instructions of a session never
    decrease, and an Initialize sent after a confirmed one carries a strictly
    larger nonce: the counter is advanced on confirmation and by Start New
    Split, and nothing lowers it.  (The mounted nonce is a random integer
    from 0 upwards.) *)
Theorem initialize_nonces_never_reused
    (randomNonce : Z) (events : list (Env * Event))
    (s : State) (log : list Submission)
    (i j : nat) (ixi ixj : TransactionInstruction) (ci cj : bool) :
  0 <= randomNonce ->
  run events (initialState randomNonce) = (s, log) ->
  (i < j)%nat ->
  log !! i = Some (SubmitInitialize ixi ci) ->
  log !! j = Some (SubmitInitialize ixj cj) ->
  carriedNonce ixi <= carriedNonce ixj
  /\ (ci = true -> carriedNonce ixi < carriedNonce ixj)
  /\ carriedNonce ixj <= nonce s.
Proof.
  intros Hpos Hrun Hij Hi Hj.
  assert (counterInv (initialState randomNonce) []) as Hinv0.
  { unfold counterInv. SessionFacts.state_simpl.
    split; [exact Hpos|split]; [intros k ix c Hk; destruct k|intros ix Hix];
      discriminate. }
  destruct (run_counter _ _ _ _ _ Hrun Hinv0 orderedLog_nil) as [Hinv Hlog].
  cbn [app] in Hinv, Hlog.
  destruct (Hlog _ _ _ Hj) as [Hbefore _].
  destruct (Hbefore _ _ _ Hij Hi) as [Hle Hlt].
  destruct Hinv as (_ & Hbound & _).
  split; [exact Hle|split; [exact Hlt|exact (proj1 (Hbound _ _ _ Hj))]].
Qed.

(** X7 -- A rejected Initialize is retried with the same nonce: when the
    last Initialize before an Initialize was not confirmed, both carry the
    same nonce (the counter only advances on confirmation, and Start New
    Split is not offered in step config). *)
Theorem rejected_initialize_is_retried_with_its_nonce
    (randomNonce : Z) (events : list (Env * Event))
    (s : State) (log : list Submission)
    (j : nat) (ixp ixj : TransactionInstruction) (cj : bool) :
  0 <= randomNonce ->
  run events (initialState randomNonce) = (s, log) ->
  log !! j = Some (SubmitInitialize ixj cj) ->
  lastInitialize (take j log) = Some (ixp, false) ->
  carriedNonce ixj = carriedNonce ixp.
Proof.
  intros Hpos Hrun Hj Hp.
  assert (counterInv (initialState randomNonce) []) as Hinv0.
  { unfold counterInv. SessionFacts.state_simpl.
    split; [exact Hpos|split]; [intros k ix c Hk; destruct k|intros ix Hix];
      discriminate. }
  destruct (run_counter _ _ _ _ _ Hrun Hinv0 orderedLog_nil) as [_ Hlog].
  cbn [app] in Hlog.
  destruct (Hlog _ _ _ Hj) as [_ Hretry]. exact (Hretry _ Hp).
Qed.

(** X8 -- Loading is set exactly while one handler is suspended at an
    await: in every session of the live component, with handlers settling
    at any later moment or never, at most one handler is in flight and
    [loading] is true exactly then; while it is, the three buttons do
    nothing, so no second handler starts; when the suspended handler
    settles, by confirmation, rejection or a wallet that cannot sign, its
    [finally] leaves loading false and nothing in flight.  A session whose
    handlers all settle before the next event is the session of [run]. *)
Theorem loading_exactly_while_in_flight
    (randomNonce : Z) (events : list (Env * LiveEvent))
    (l : Live) (log : list Submission) :
  runLive events (mounted randomNonce) = (l, log) ->
  (length (suspended l) <= 1)%nat
  /\ (loading (cells l) = true <-> suspended l <> [])
  /\ (forall env ev,
        suspended l <> [] -> isClick ev = true ->
        handleLive env (Rendered ev) l = (l, []))
  /\ (forall env i p,
        suspended l !! i = Some p ->
        loading (cells (handleLive env (Settled i) l).1) = false
        /\ suspended (handleLive env (Settled i) l).1 = [])
  /\ (forall atomic s,
        loading s = false ->
        runLive (settledAtOnce atomic) (idle s)
        = (idle (run atomic s).1, (run atomic s).2)).
Proof.
  intros Hrun.
  assert (oneInFlight l) as Hinv.
  { pose proof (InFlightFacts.runLive_oneInFlight events (mounted randomNonce)) as Hall.
    rewrite Hrun in Hall. apply Hall. right. split; reflexivity. }
  assert (loading (cells l) = true <-> suspended l <> []) as Hiff.
  { destruct Hinv as [[Htrue [p Hp]]|[Hfalse Hnone]].
    - rewrite Htrue, Hp. split; [discriminate|reflexivity].
    - rewrite Hfalse, Hnone. split; [discriminate|intros Hne; contradiction]. }
  split; [|split; [exact Hiff|split; [|split]]].
  - destruct Hinv as [[_ [p Hp]]|[_ Hnone]]; [rewrite Hp|rewrite Hnone]; cbn; lia.
  - intros env ev Hbusy Hclick.
    apply InFlightFacts.click_while_loading; [apply Hiff; exact Hbusy|exact Hclick].
  - intros env i p Hp. exact (InFlightFacts.settle_in_flight env i p l Hinv Hp).
  - intros atomic s Hl. exact (InFlightFacts.settled_session atomic s Hl).
Qed.


(** X10 -- A form whose recipient field does not hold a 32-byte base-58
    key submits nothing: neither handler hands an instruction to the network,
    and initializeSplit leaves the step and the nonce counter as they were
    (the failed attempt has already copied the counter into activeNonce). *)
Theorem invalid_recipient_submits_nothing (env : Env) (s : State) :
  is_ok (PublicKey_of_string (trim (recipient1 s))) = false
  \/ is_ok (PublicKey_of_string (trim (recipient2 s))) = false ->
  (initializeSplit env s).2 = []
  /\ (executeSplit env s).2 = []
  /\ step (initializeSplit env s).1 = step s
  /\ nonce (initializeSplit env s).1 = nonce s
  /\ (forall w, publicKey (wallet env) = Some w ->
                sendTransaction (wallet env) = true ->
                activeNonce (initializeSplit env s).1 = nonce s).
Proof.
  intros Hbad. unfold initializeSplit, executeSplit. cbv zeta.
  SessionFacts.state_simpl.
  destruct (PublicKey_of_string (trim (recipient1 s))) as [r1|e1];
    destruct (PublicKey_of_string (trim (recipient2 s))) as [r2|e2];
    cbn [is_ok bind] in *;
    try (destruct Hbad; discriminate);
    destruct (publicKey (wallet env)) as [w|];
    destruct (sendTransaction (wallet env));
    destruct (signTransaction (wallet env));
    cbn [fst snd]; SessionFacts.state_simpl;
    repeat split; try reflexivity; intros; congruence.
Qed.

(** X11 -- Execute is never the first transaction: from step config (the
    mounted state, and the state Start New Split leaves) whatever a session
    submits first is an Initialize. *)
Theorem first_submission_is_initialize
    (events : list (Env * Event)) (s s' : State) (log : list Submission) :
  step s = config ->
  run events s = (s', log) ->
  match log with
  | SubmitExecute _ _ :: _ => False
  | _ => True
  end
  /\ (forall s0, step (resetForm s0) = config)
  /\ (forall r, step (initialState r) = config).
Proof.
  intros Hstep Hrun. split; [|split; reflexivity].
  revert s s' log Hstep Hrun.
  induction events as [|[env ev] rest IH]; intros s s' log Hstep Hrun.
  - inversion Hrun; subst. exact I.
  - cbn [run] in Hrun.
    destruct (handle env ev s) as [s1 out1] eqn:Hh.
    destruct (run rest s1) as [s2 out2] eqn:Hr.
    inversion Hrun; subst.
    apply handle_outcome in Hh
      as [(-> & _ & Hs)
         |[(_ & Hexec & _)
          |[(ix & w & p1 & p2 & -> & _)
           |[(ix & w & p1 & p2 & -> & _)
            |(ix & c & _ & Hexec & _)]]]];
      try (rewrite Hstep in Hexec; discriminate); try exact I.
    cbn [app]. apply (IH s1 s' out2); [congruence|exact Hr].
Qed.

(** X12 -- Execute can be clicked again: executeSplit changes neither the
    recipients, the amount nor activeNonce, so a second click in the same
    environment hands the network exactly the instruction of the first. *)
Theorem execute_click_is_repeatable (env : Env) (s : State) :
  (executeSplit env (executeSplit env s).1).2 = (executeSplit env s).2
  /\ activeNonce (executeSplit env s).1 = activeNonce s
  /\ nonce (executeSplit env s).1 = nonce s
  /\ step (executeSplit env s).1 = step s.
Proof.
  split.
  - apply HandlerFacts.executeSplit_sameForm, HandlerFacts.executeSplit_keeps_form.
  - destruct (executeSplit env s) as [s1 out] eqn:Hexec.
    apply SessionFacts.executeSplit_cases in Hexec as (_ & _ & Hs & Hn & Ha & _).
    auto.
Qed.

End InterfaceProperties.

(** ** The checked arithmetic quoted in the README *)

Section ArithmeticProperties.
Import Ledger.

(** X13 -- The checked product of the split never fails and never leaves
    the u64 range: for every u64 amount and every u8 percentage the 128-bit
    multiplication and the division by 100 both succeed; for a percentage of
    at most 100 the cast to u64 loses nothing, the result is at most the
    amount, and rounding down costs less than one unit (less than 100
    hundredths). *)
Theorem checked_product_never_fails (amount percentage : Z) :
  Bytes.is_u64 amount -> Bytes.is_u8 percentage ->
  exists amount1,
    amount1_of amount percentage = Ok amount1
    /\ 0 <= amount1 < 2 ^ 64
    /\ (percentage <= 100 ->
        amount1 = amount * percentage / 100
        /\ amount1 <= amount
        /\ 0 <= amount * percentage - 100 * amount1 < 100).
Proof.
  intros Ha Hp.
  destruct (LedgerFacts.amount1_of_u64 amount percentage Ha Hp) as [_ Hone].
  exists (as_u64 (amount * percentage / 100)).
  split; [exact Hone|]. unfold as_u64.
  split; [apply Z.mod_pos_bound; lia|].
  intros Hle. unfold Bytes.is_u64, Bytes.is_u8 in *.
  assert (0 <= amount * percentage / 100 <= amount) as Hq.
  { split; [apply Z.div_pos; nia|apply Z.div_le_upper_bound; nia]. }
  rewrite Z.mod_small by lia.
  split; [reflexivity|split; [lia|]].
  pose proof (Z.div_mod (amount * percentage) 100) as Hdm.
  pose proof (Z.mod_pos_bound (amount * percentage) 100) as Hmb. lia.
Qed.

End ArithmeticProperties.

(** ** The further properties on examples *)

Module MoreExamples.
Import SplitInterface Examples.


(** alice's first Initialize is rejected, she retries, starts a new split
    and initializes again. *)
Definition retrySession : list (Env * Event) :=
  [ (connected alice, ChangeRecipient1 address1);
    (connected alice, ChangeRecipient2 address2);
    (refused alice, ClickInitialize);
    (connected alice, ClickInitialize);
    (connected alice, ClickStartNewSplit);
    (connected alice, ChangeRecipient1 address1);
    (connected alice, ChangeRecipient2 address2);
    (connected alice, ClickInitialize) ].

(** alice fills the form and clicks Initialize; the handler is left at its
    first await. *)
Definition clickedInitialize : list (Env * InFlight.LiveEvent) :=
  [ (connected alice, InFlight.Rendered (ChangeRecipient1 address1));
    (connected alice, InFlight.Rendered (ChangeRecipient2 address2));
    (connected alice, InFlight.Rendered ClickInitialize) ].

End MoreExamples.

Lemma u64ToLeBytes_round_trip_witness :
  exists bs, Instructions.u64ToLeBytes 41 = Ok bs /\ Bytes.le_value bs = 41.
Proof.
  destruct (u64ToLeBytes_round_trip 41 42) as [(bs & Hbs & _ & Hv) _];
    [lia|lia|].
  exists bs. split; [exact Hbs|exact Hv].
Defined.

Lemma hashed_seeds_determine_owner_and_nonce_witness :
  exists b,
    Instructions.u64ToLeBytes 7 = Ok b
    /\ Examples.alice = Examples.alice /\ 7 = 7.
Proof.
  eexists.
  assert (Instructions.u64ToLeBytes 7 = Ok _) as Hb by (vm_compute; reflexivity).
  split; [exact Hb|].
  assert (0 <= bn Examples.alice < 2 ^ 256) as Hkey by (cbn; lia).
  destruct (hashed_seeds_determine_owner_and_nonce Examples.alice Examples.alice
              7 7 255 255 _ _ Hkey Hkey ltac:(lia) ltac:(lia) Hb Hb eq_refl)
    as (Ho & Hn & _).
  split; [exact Ho|exact Hn].
Defined.

Lemma execute_builder_rejects_wide_amount_witness :
  Instructions.createExecuteSplitInstruction (H := Examples.crypto)
    Examples.alice Examples.bob Examples.carol (2 ^ 64) 7
  = Err (Error "byte array longer than desired length").
Proof.
  assert (exists pda bump,
             Web3.findProgramAddressSync (H := Examples.crypto)
               (Addressing.seedsOf Examples.alice (Bytes.le_bytes 8 (Z.abs 7)))
               Instructions.PROGRAM_ID = Ok (pda, bump)) as (pda & bump & Hpda).
  { eexists. eexists. vm_compute. reflexivity. }
  apply (execute_builder_rejects_wide_amount (H := Examples.crypto)
           Examples.alice Examples.bob Examples.carol pda (2 ^ 64) 7 bump);
    [cbn; lia|exact Hpda|cbn; lia].
Defined.

Lemma initialize_nonces_never_reused_witness :
  exists s ix0 ix1 ix2,
    SplitInterface.run (H := Examples.crypto) MoreExamples.retrySession
      (SplitInterface.initialState 41)
    = (s, [SplitInterface.SubmitInitialize ix0 false;
           SplitInterface.SubmitInitialize ix1 true;
           SplitInterface.SubmitInitialize ix2 true])
    /\ InterfaceFacts.carriedNonce ix1 < InterfaceFacts.carriedNonce ix2.
Proof.
  do 4 eexists.
  assert (SplitInterface.run (H := Examples.crypto) MoreExamples.retrySession
            (SplitInterface.initialState 41)
          = (_, [SplitInterface.SubmitInitialize _ false;
                 SplitInterface.SubmitInitialize _ true;
                 SplitInterface.SubmitInitialize _ true])) as Hrun
    by (vm_compute; reflexivity).
  split; [exact Hrun|].
  destruct (initialize_nonces_never_reused (H := Examples.crypto) 41 _ _ _
              1%nat 2%nat _ _ true true ltac:(lia) Hrun ltac:(lia) eq_refl eq_refl)
    as (_ & Hlt & _).
  exact (Hlt eq_refl).
Defined.

Lemma rejected_initialize_is_retried_with_its_nonce_witness :
  exists s ix0 ix1 ix2,
    SplitInterface.run (H := Examples.crypto) MoreExamples.retrySession
      (SplitInterface.initialState 41)
    = (s, [SplitInterface.SubmitInitialize ix0 false;
           SplitInterface.SubmitInitialize ix1 true;
           SplitInterface.SubmitInitialize ix2 true])
    /\ InterfaceFacts.carriedNonce ix1 = InterfaceFacts.carriedNonce ix0.
Proof.
  do 4 eexists.
  assert (SplitInterface.run (H := Examples.crypto) MoreExamples.retrySession
            (SplitInterface.initialState 41)
          = (_, [SplitInterface.SubmitInitialize _ false;
                 SplitInterface.SubmitInitialize _ true;
                 SplitInterface.SubmitInitialize _ true])) as Hrun
    by (vm_compute; reflexivity).
  split; [exact Hrun|].
  exact (rejected_initialize_is_retried_with_its_nonce (H := Examples.crypto)
           41 _ _ _ 1%nat _ _ true ltac:(lia) Hrun eq_refl eq_refl).
Defined.


Lemma invalid_recipient_submits_nothing_witness :
  (SplitInterface.initializeSplit (H := Examples.crypto)
     (Examples.connected Examples.alice) (SplitInterface.initialState 41)).2 = []
  /\ SplitInterface.step
       (SplitInterface.initializeSplit (H := Examples.crypto)
          (Examples.connected Examples.alice) (SplitInterface.initialState 41)).1
     = SplitInterface.config.
Proof.
  destruct (invalid_recipient_submits_nothing (H := Examples.crypto)
              (Examples.connected Examples.alice) (SplitInterface.initialState 41))
    as (Hout & _ & Hstep & _).
  - left. vm_compute. reflexivity.
  - split; [exact Hout|exact Hstep].
Defined.

Lemma first_submission_is_initialize_witness :
  exists s ixI ixE,
    SplitInterface.run (H := Examples.crypto)
      (Examples.session (Examples.connected Examples.alice))
      (SplitInterface.initialState 41)
    = (s, [SplitInterface.SubmitInitialize ixI true;
           SplitInterface.SubmitExecute ixE true])
    /\ SplitInterface.step (SplitInterface.resetForm s) = SplitInterface.config.
Proof.
  do 3 eexists.
  assert (SplitInterface.run (H := Examples.crypto)
            (Examples.session (Examples.connected Examples.alice))
            (SplitInterface.initialState 41)
          = (_, [SplitInterface.SubmitInitialize _ true;
                 SplitInterface.SubmitExecute _ true])) as Hrun
    by (vm_compute; reflexivity).
  split; [exact Hrun|].
  destruct (first_submission_is_initialize (H := Examples.crypto)
              (Examples.session (Examples.connected Examples.alice))
              (SplitInterface.initialState 41) _ _ eq_refl Hrun)
    as (_ & Hreset & _).
  apply Hreset.
Defined.

Lemma checked_product_never_fails_witness :
  exists amount1, Ledger.amount1_of 1000 33 = Ok amount1 /\ amount1 <= 1000.
Proof.
  destruct (checked_product_never_fails 1000 33) as (a1 & Hok & _ & Hexact).
  - unfold Bytes.is_u64. lia.
  - unfold Bytes.is_u8. lia.
  - exists a1. split; [exact Hok|]. destruct Hexact as (_ & Hle & _); [lia|exact Hle].
Defined.

Lemma u64ToLeBytes_drops_the_sign_witness :
  Instructions.u64ToLeBytes (2 ^ 53) = Err (Error "Assertion failed")
  /\ Instructions.u64ToLeBytes (- 7) = Instructions.u64ToLeBytes 7
  /\ is_ok (Instructions.u64ToLeBytes (1 - 2 ^ 53)) = true.
Proof.
  split; [|split].
  - destruct (u64ToLeBytes_drops_the_sign (H := Examples.crypto)
                Examples.alice Examples.bob Examples.carol 60 40 1000 (2 ^ 53))
      as (_ & Hthrows & _).
    apply Hthrows. cbn. lia.
  - destruct (u64ToLeBytes_drops_the_sign (H := Examples.crypto)
                Examples.alice Examples.bob Examples.carol 60 40 1000 7)
      as (_ & _ & Hsign & _).
    exact Hsign.
  - destruct (u64ToLeBytes_drops_the_sign (H := Examples.crypto)
                Examples.alice Examples.bob Examples.carol 60 40 1000 (1 - 2 ^ 53))
      as (Hok & _).
    apply Hok. cbn. lia.
Defined.

Lemma loading_exactly_while_in_flight_witness :
  exists l log p,
    InFlight.runLive (H := Examples.crypto) MoreExamples.clickedInitialize
      (InFlight.mounted 41) = (l, log)
    /\ InFlight.suspended l = [p]
    /\ SplitInterface.loading (InFlight.cells l) = true
    /\ SplitInterface.loading
         (InFlight.cells
            (InFlight.handleLive (H := Examples.crypto)
               (Examples.refused Examples.alice) (InFlight.Settled 0) l).1) = false.
Proof.
  do 3 eexists.
  assert (InFlight.runLive (H := Examples.crypto) MoreExamples.clickedInitialize
            (InFlight.mounted 41)
          = ({| InFlight.cells := _; InFlight.progress := _;
                InFlight.suspended := [_] |}, _)) as Hrun
    by (vm_compute; reflexivity).
  split; [exact Hrun|].
  destruct (loading_exactly_while_in_flight (H := Examples.crypto)
              41 MoreExamples.clickedInitialize _ _ Hrun)
    as (_ & Hiff & _ & Hsettle & _).
  split; [reflexivity|]. split.
  - apply Hiff. discriminate.
  - exact (proj1 (Hsettle (Examples.refused Examples.alice) 0%nat _ eq_refl)).
Defined.
